(** * neosvrpy: a shallow embedding of the client and its data classes

    The development follows the two source modules:
    - [neosvrpy/classes.py]: the record data classes, [recordTypeMapping]
      and [LoginDetails];
    - [neosvrpy/client.py]: the [Client] data class, its [headers]
      property, [processRecordList], [_request] and the operations built
      on it.

    Python values are modelled by [pyval]; dictionaries are finite maps
    with string keys.  Code that raises returns in [result]; code that
    reads the clock, talks to the HTTP session or mutates the client runs
    in the state-and-exception monad [Py], whose state survives a raise,
    as the attributes of a Python object do. *)

From stdpp Require Import gmap strings list fin_maps.
From Stdlib Require Import ZArith Lia Ascii.

Local Open Scope string_scope.
Local Open Scope list_scope.

(** ** Python values *)

(** What [json.load], [Response.json()] and the client's own literals can
    produce.  A float is kept as its IEEE-754 bit pattern: the code under
    study never computes with one. *)
#[warnings="-register-all"]
Inductive pyval : Type :=
  | PNone
  | PBool (b : bool)
  | PInt (z : Z)
  | PFloat (bits : Z)
  | PStr (s : string)
  | PList (l : list pyval)
  | PDict (d : gmap string pyval).

(** Truth value testing, [bool(v)]. *)
Definition py_truthy (v : pyval) : bool :=
  match v with
  | PNone => false
  | PBool b => b
  | PInt z => negb (z =? 0)%Z
  | PFloat bits => negb ((bits =? 0)%Z || (bits =? 2 ^ 63)%Z)
  | PStr s => negb (String.eqb s "")
  | PList l => match l with [] => false | _ => true end
  | PDict d => negb (bool_decide (d = ∅))
  end.

(** [bool(x)] for an attribute annotated [Optional[str]]. *)
Definition str_truthy (o : option string) : bool :=
  match o with
  | None => false
  | Some s => negb (String.eqb s "")
  end.

(** [bool(x)] for an optional keyword argument holding a Python value. *)
Definition arg_truthy (o : option pyval) : bool :=
  match o with
  | None => false
  | Some v => py_truthy v
  end.

(** [sub in s] on two strings: [sub] occurs in [s]. *)
Fixpoint str_contains (sub s : string) : bool :=
  String.prefix sub s
  || match s with
     | EmptyString => false
     | String _ s' => str_contains sub s'
     end.

(** [s.split(sep)] for a one-character separator. *)
Fixpoint str_split (sep : Ascii.ascii) (s : string) : list string :=
  match s with
  | EmptyString => [EmptyString]
  | String c s' =>
      if Ascii.eqb c sep then EmptyString :: str_split sep s'
      else match str_split sep s' with
           | [] => [String c EmptyString]
           | w :: ws => String c w :: ws
           end
  end.

(** [str(x)] / [format] of an [Optional[str]] attribute. *)
Definition str_of_opt (o : option string) : string :=
  match o with
  | None => "None"
  | Some s => s
  end.

(** Timestamps.  A [datetime] is a point on the time line counted in
    microseconds, the resolution of Python's [datetime] and [timedelta];
    [total_seconds()] and [timestamp()] are that count divided by 10^6,
    and comparing them is comparing the counts. *)
Definition datetime : Type := Z.

(** [urllib.parse.ParseResult]. *)
Module ParseResult.
Record t : Type := mk {
  scheme : string;
  netloc : string;
  path : string;
  params : string;
  query : string;
  fragment : string
}.
End ParseResult.

(** ** HTTP responses and exceptions *)

(** A [requests.Response] as the client reads it.  [json] is what
    [req.json()] returns, or [None] when it raises [JSONDecodeError]. *)
Module Response.
Record t : Type := mk {
  status_code : Z;
  text : string;
  headers : gmap string string;
  json : option pyval
}.
End Response.

(** The argument [InvalidToken] is raised with. *)
Inductive token_arg : Type :=
  | TokenMessage (msg : string)
  | TokenHeaders (hdrs : gmap string string).

(** Where a [ValueError] comes from. *)
Inductive value_error : Type :=
  | VEMessage (msg : string)            (* raise ValueError(msg) in the source *)
  | VEEnum (enum : string) (v : pyval)  (* Enum(v): v is not a valid member value *)
  | VETimestamp (s : string)            (* isoparse, fromisoformat: not a timestamp *)
  | VEUnpack (expected got : nat)       (* tuple unpacking of the wrong length *)
  | VEUrl (s : string).                 (* urlparse: not a URL *)

Inductive exn : Type :=
  (* neosvrpy.exceptions *)
  | NeosException (msg : string)
  | NeosAPIException (req : Response.t) (message : option pyval)
  | InvalidCredentials (body : string)
  | InvalidToken (arg : token_arg)
  | NoTokenError
  (* built-in exceptions *)
  | ValueError (e : value_error)
  | TypeError
  | KeyError (key : string)
  | AttributeError
  | RecursionError
  (* json *)
  | JSONDecodeError
  (* dacite *)
  | MissingValueError (field : string)
  | WrongTypeError (field : string)
  (* requests: the call itself failed *)
  | RequestException (msg : string).

(** Library functions and constants the two modules import.
    [isoparse s = None], [urlparse s = None] and [fromisoformat s = None]
    stand for the [ValueError] each raises on a string it cannot parse
    ([urlparse] on an unbalanced bracket in the host, for one).

    [from_dict_non_mapping name data] is the exception
    [dacite.from_dict] raises on [data] that is not a mapping, [name]
    being the first field of the class.  It depends on the version of
    dacite, which the repository does not pin: up to 1.6 the field is
    read as [data[name]], a [TypeError]; later versions test
    [name in data] first, which raises [TypeError] on a value that is no
    container and otherwise leads to [MissingValueError] or to the
    [TypeError] of the subscript. *)
Class Library : Type := {
  isoparse : string → option datetime;       (* dateutil.parser.isoparse *)
  urlparse : string → option ParseResult.t;  (* urllib.parse.urlparse *)
  isoformat : datetime → string;             (* datetime.isoformat *)
  fromisoformat : string → option datetime;  (* datetime.fromisoformat *)
  version : string;                          (* neosvrpy.__version__ *)
  CLOUDX_NEOS_API : string;                  (* neosvrpy.endpoints *)
  from_dict_non_mapping : string → pyval → exn  (* dacite.from_dict *)
}.

Inductive result (A : Type) : Type :=
  | Ok (a : A)
  | Err (e : exn).
Arguments Ok {A} a.
Arguments Err {A} e.

Definition rbind {A B : Type} (m : result A) (k : A → result B) : result B :=
  match m with
  | Ok a => k a
  | Err e => Err e
  end.

Global Instance result_ret : MRet result := @Ok.
Global Instance result_bind : MBind result := λ A B k m, rbind m k.
Global Instance result_fmap : FMap result := λ A B f m, rbind m (λ a, Ok (f a)).

Definition is_Ok {A : Type} (r : result A) : Prop :=
  match r with Ok _ => True | Err _ => False end.

Definition is_Err {A : Type} (r : result A) : Prop :=
  match r with Ok _ => False | Err _ => True end.

(** ** classes.py *)

Inductive RecordType : Type :=
  | OBJECT | LINK | DIRECTORY | WORLD | TEXTURE | AUDIO.

(** The [value] of each member of the enumeration. *)
Definition RecordType_value (t : RecordType) : string :=
  match t with
  | OBJECT => "object"
  | LINK => "link"
  | DIRECTORY => "directory"
  | WORLD => "world"
  | TEXTURE => "texture"
  | AUDIO => "audio"
  end.

(** [RecordType(v)]: the member whose value equals [v], if any.  Only a
    string can equal one of the six values. *)
Definition RecordType_of_value (v : pyval) : option RecordType :=
  match v with
  | PStr s =>
      if String.eqb s "object" then Some OBJECT
      else if String.eqb s "link" then Some LINK
      else if String.eqb s "directory" then Some DIRECTORY
      else if String.eqb s "world" then Some WORLD
      else if String.eqb s "texture" then Some TEXTURE
      else if String.eqb s "audio" then Some AUDIO
      else None
  | _ => None
  end.

Module NeosRecord.
Record t : Type := mk {
  id : string;
  globalVersion : Z;
  localVersion : Z;
  lastModifyingUserId : option string;
  name : string;
  recordType : RecordType;
  path : option string;
  isPublic : bool;
  isForPatrons : bool;
  isListed : bool;
  isDeleted : bool;
  lastModificationTime : datetime;
  visits : Z;
  rating : Z;
  ownerId : string
}.
End NeosRecord.

(** A derived data class holds the inherited fields ([base]) followed by
    its own, in declaration order. *)
Module NeosLink.
Record t : Type := mk {
  base : NeosRecord.t;
  assetUri : ParseResult.t
}.
End NeosLink.

Module NeosDirectory.
Record t : Type := mk {
  base : NeosRecord.t;
  lastModifyingMachineId : option string;
  ownerName : string;
  tags : list string;
  creationTime : option datetime
}.
End NeosDirectory.

Module NeosObject.
Record t : Type := mk {
  base : NeosRecord.t;
  assetUri : string;
  lastModifyingMachineId : string;
  ownerName : string;
  tags : list string;
  creationTime : datetime
}.
End NeosObject.

Module NeosWorld.
Record t : Type := mk { base : NeosRecord.t }.
End NeosWorld.

Module NeosTexture.
Record t : Type := mk { base : NeosRecord.t }.
End NeosTexture.

Module NeosAudio.
Record t : Type := mk { base : NeosRecord.t }.
End NeosAudio.

(** The six data classes derived from [NeosRecord], and an instance of
    any one of them. *)
Inductive record_class : Type :=
  | CNeosDirectory | CNeosLink | CNeosObject
  | CNeosWorld | CNeosTexture | CNeosAudio.

Inductive record_instance : Type :=
  | IDirectory (x : NeosDirectory.t)
  | ILink (x : NeosLink.t)
  | IObject (x : NeosObject.t)
  | IWorld (x : NeosWorld.t)
  | ITexture (x : NeosTexture.t)
  | IAudio (x : NeosAudio.t).

(** [type(x)]. *)
Definition class_of (x : record_instance) : record_class :=
  match x with
  | IDirectory _ => CNeosDirectory
  | ILink _ => CNeosLink
  | IObject _ => CNeosObject
  | IWorld _ => CNeosWorld
  | ITexture _ => CNeosTexture
  | IAudio _ => CNeosAudio
  end.

(** The inherited [NeosRecord] fields of an instance. *)
Definition base_of (x : record_instance) : NeosRecord.t :=
  match x with
  | IDirectory d => NeosDirectory.base d
  | ILink l => NeosLink.base l
  | IObject o => NeosObject.base o
  | IWorld w => NeosWorld.base w
  | ITexture t => NeosTexture.base t
  | IAudio a => NeosAudio.base a
  end.

Definition recordTypeMapping (t : RecordType) : record_class :=
  match t with
  | DIRECTORY => CNeosDirectory
  | LINK => CNeosLink
  | OBJECT => CNeosObject
  | WORLD => CNeosWorld
  | TEXTURE => CNeosTexture
  | AUDIO => CNeosAudio
  end.

Module LoginDetails.
Record t : Type := mk {
  ownerId : option string;
  username : option string;
  email : option string;
  password : option string;
  secretMachineId : string;
  rememberMe : pyval
}.
End LoginDetails.

(** [__post_init__]: the two checks, in order. *)
Definition LoginDetails_post_init (self : LoginDetails.t) : result unit :=
  if negb (str_truthy (LoginDetails.ownerId self))
     && negb (str_truthy (LoginDetails.username self))
     && negb (str_truthy (LoginDetails.email self))
  then Err (NeosException "Either an ownerId, an username or an email is needed")
  else if negb (str_truthy (LoginDetails.password self))
  then Err (NeosException "A password is needed")
  else Ok tt.

(** [LoginDetails(...)]: the generated [__init__] stores the fields and
    calls [__post_init__]; the instance reaches the caller only when that
    returns.  [secretMachineId] is the supplied value or the one
    [default_factory] generated. *)
Definition LoginDetails_new (ownerId username email password : option string)
    (secretMachineId : string) (rememberMe : pyval) : result LoginDetails.t :=
  let self := LoginDetails.mk ownerId username email password
                secretMachineId rememberMe in
  _ ← LoginDetails_post_init self;
  Ok self.

(** ** Decoding with dacite

    [dacite.from_dict(cls, data, DACITE_CONFIG)] visits the fields of
    [cls] in declaration order (inherited fields first).  For each one it
    reads [data[name]]; a missing key gives [None] for an [Optional]
    field and [MissingValueError] otherwise; a present value goes through
    the type hook or the cast configured for the field's type, and the
    outcome is checked against the annotation ([WrongTypeError]).  Keys
    that name no field are ignored.

    [DACITE_CONFIG] casts to [RecordType] and hooks [datetime] to
    [isoparse] and [ParseResult] to [urlparse]. *)

Section Decoding.
Context `{Library}.

Definition field_str (data : gmap string pyval) (f : string) : result string :=
  match data !! f with
  | None => Err (MissingValueError f)
  | Some (PStr s) => Ok s
  | Some _ => Err (WrongTypeError f)
  end.

Definition field_opt_str (data : gmap string pyval) (f : string)
    : result (option string) :=
  match data !! f with
  | None | Some PNone => Ok None
  | Some (PStr s) => Ok (Some s)
  | Some _ => Err (WrongTypeError f)
  end.

(** [bool] is a subclass of [int]: [isinstance(True, int)] holds and
    [True == 1]. *)
Definition field_int (data : gmap string pyval) (f : string) : result Z :=
  match data !! f with
  | None => Err (MissingValueError f)
  | Some (PInt z) => Ok z
  | Some (PBool b) => Ok (Z.b2z b)
  | Some _ => Err (WrongTypeError f)
  end.

Definition field_bool (data : gmap string pyval) (f : string) : result bool :=
  match data !! f with
  | None => Err (MissingValueError f)
  | Some (PBool b) => Ok b
  | Some _ => Err (WrongTypeError f)
  end.

(** Cast: [RecordType(value)], a [ValueError] when no member has that
    value. *)
Definition field_RecordType (data : gmap string pyval) (f : string)
    : result RecordType :=
  match data !! f with
  | None => Err (MissingValueError f)
  | Some v =>
      match RecordType_of_value v with
      | Some t => Ok t
      | None => Err (ValueError (VEEnum "RecordType" v))
      end
  end.

(** Hook: [isoparse(value)]; it does not accept a value that is not a
    string. *)
Definition hook_isoparse (v : pyval) : result datetime :=
  match v with
  | PStr s =>
      match isoparse s with
      | Some t => Ok t
      | None => Err (ValueError (VETimestamp s))
      end
  | _ => Err TypeError
  end.

Definition field_datetime (data : gmap string pyval) (f : string)
    : result datetime :=
  match data !! f with
  | None => Err (MissingValueError f)
  | Some v => hook_isoparse v
  end.

Definition field_opt_datetime (data : gmap string pyval) (f : string)
    : result (option datetime) :=
  match data !! f with
  | None | Some PNone => Ok None
  | Some v => t ← hook_isoparse v; Ok (Some t)
  end.

(** Hook: [urlparse(value)].  On a string it returns a [ParseResult]
    or raises [ValueError], which [from_dict] lets through; a falsy
    value of another type is parsed as empty bytes, which is no
    [ParseResult], and a truthy one has no [decode]. *)
Definition field_ParseResult (data : gmap string pyval) (f : string)
    : result ParseResult.t :=
  match data !! f with
  | None => Err (MissingValueError f)
  | Some (PStr s) =>
      match urlparse s with
      | Some uri => Ok uri
      | None => Err (ValueError (VEUrl s))
      end
  | Some v => if py_truthy v then Err AttributeError else Err (WrongTypeError f)
  end.

(** The elements of a [List[str]], or [None] if some element is not a
    string. *)
Fixpoint all_str (l : list pyval) : option (list string) :=
  match l with
  | [] => Some []
  | PStr s :: l' => (s ::.) <$> all_str l'
  | _ :: _ => None
  end.

Definition field_list_str (data : gmap string pyval) (f : string)
    : result (list string) :=
  match data !! f with
  | None => Err (MissingValueError f)
  | Some (PList l) =>
      match all_str l with
      | Some ss => Ok ss
      | None => Err (WrongTypeError f)
      end
  | Some _ => Err (WrongTypeError f)
  end.

(** The fields are read from a mapping; on any other value
    [from_dict] raises at the first field, [name]. *)
Definition as_dict (name : string) (data : pyval) : result (gmap string pyval) :=
  match data with
  | PDict d => Ok d
  | _ => Err (from_dict_non_mapping name data)
  end.

(** The fields of [NeosRecord], in order. *)
Definition fields_NeosRecord (d : gmap string pyval) : result NeosRecord.t :=
  id ← field_str d "id";
  globalVersion ← field_int d "globalVersion";
  localVersion ← field_int d "localVersion";
  lastModifyingUserId ← field_opt_str d "lastModifyingUserId";
  name ← field_str d "name";
  recordType ← field_RecordType d "recordType";
  path ← field_opt_str d "path";
  isPublic ← field_bool d "isPublic";
  isForPatrons ← field_bool d "isForPatrons";
  isListed ← field_bool d "isListed";
  isDeleted ← field_bool d "isDeleted";
  lastModificationTime ← field_datetime d "lastModificationTime";
  visits ← field_int d "visits";
  rating ← field_int d "rating";
  ownerId ← field_str d "ownerId";
  Ok (NeosRecord.mk id globalVersion localVersion lastModifyingUserId name
        recordType path isPublic isForPatrons isListed isDeleted
        lastModificationTime visits rating ownerId).

Definition from_dict_NeosRecord (data : pyval) : result NeosRecord.t :=
  d ← as_dict "id" data;
  fields_NeosRecord d.

Definition from_dict_NeosLink (data : pyval) : result NeosLink.t :=
  d ← as_dict "id" data;
  base ← fields_NeosRecord d;
  assetUri ← field_ParseResult d "assetUri";
  Ok (NeosLink.mk base assetUri).

Definition from_dict_NeosDirectory (data : pyval) : result NeosDirectory.t :=
  d ← as_dict "id" data;
  base ← fields_NeosRecord d;
  lastModifyingMachineId ← field_opt_str d "lastModifyingMachineId";
  ownerName ← field_str d "ownerName";
  tags ← field_list_str d "tags";
  creationTime ← field_opt_datetime d "creationTime";
  Ok (NeosDirectory.mk base lastModifyingMachineId ownerName tags creationTime).

Definition from_dict_NeosObject (data : pyval) : result NeosObject.t :=
  d ← as_dict "id" data;
  base ← fields_NeosRecord d;
  assetUri ← field_str d "assetUri";
  lastModifyingMachineId ← field_str d "lastModifyingMachineId";
  ownerName ← field_str d "ownerName";
  tags ← field_list_str d "tags";
  creationTime ← field_datetime d "creationTime";
  Ok (NeosObject.mk base assetUri lastModifyingMachineId ownerName tags
        creationTime).

(** [dacite.from_dict(cls, data, DACITE_CONFIG)] for a class of the
    record family. *)
Definition from_dict (cls : record_class) (data : pyval)
    : result record_instance :=
  match cls with
  | CNeosDirectory => IDirectory <$> from_dict_NeosDirectory data
  | CNeosLink => ILink <$> from_dict_NeosLink data
  | CNeosObject => IObject <$> from_dict_NeosObject data
  | CNeosWorld => (IWorld ∘ NeosWorld.mk) <$> from_dict_NeosRecord data
  | CNeosTexture => (ITexture ∘ NeosTexture.mk) <$> from_dict_NeosRecord data
  | CNeosAudio => (IAudio ∘ NeosAudio.mk) <$> from_dict_NeosRecord data
  end.

(** [Client.processRecordList]: the loop, with [ret] as accumulator.
    Every member of [RecordType] is a key of [recordTypeMapping], so the
    subscript cannot fail. *)
Fixpoint processRecordList_loop (data : list pyval) (ret : list record_instance)
    : result (list record_instance) :=
  match data with
  | [] => Ok ret
  | raw_item :: data' =>
      item ← from_dict_NeosRecord raw_item;
      x ← from_dict (recordTypeMapping (NeosRecord.recordType item)) raw_item;
      processRecordList_loop data' (ret ++ [x])
  end.

Definition processRecordList (data : list pyval) : result (list record_instance) :=
  processRecordList_loop data [].

End Decoding.

(** ** client.py: the client and its world *)

(** The methods of [requests.Session] that take a URL and keyword
    arguments and perform a request. *)
Inductive http_method : Type :=
  | GET | OPTIONS | HEAD | POST | PUT | PATCH | DELETE.

(** [getattr(self.session, verb, None)], when the attribute can be called
    with [url=...] to perform a request. *)
Definition session_method (verb : string) : option http_method :=
  if String.eqb verb "get" then Some GET
  else if String.eqb verb "options" then Some OPTIONS
  else if String.eqb verb "head" then Some HEAD
  else if String.eqb verb "post" then Some POST
  else if String.eqb verb "put" then Some PUT
  else if String.eqb verb "patch" then Some PATCH
  else if String.eqb verb "delete" then Some DELETE
  else None.

(** One call on the session: the method, the keyword arguments [_request]
    put in [args] ([None] for a key it left out), and the session's
    headers at the time of the call. *)
Module Request.
Record t : Type := mk {
  method : http_method;
  url : string;
  data : option pyval;
  json : option pyval;
  params : option pyval;
  headers : gmap string string
}.
End Request.

(** The fields of the [Client] data class, each holding a value of its
    annotated type.  [session] is a class attribute: one [Session] object,
    kept apart in [State]. *)
Module Client.
Record t : Type := mk {
  userId : option string;
  token : option string;
  expire : option datetime;
  rememberMe : bool;
  lastUpdate : option datetime;
  secretMachineId : option string
}.
End Client.

(** The file [auth.token]: missing, present without a JSON document in it
    (as right after it was opened for writing), or holding a document. *)
Inductive authfile_state : Type :=
  | NoFile
  | NotJSON
  | Document (doc : pyval).

(** What the code can read and change: the client object, the headers of
    the shared session, the token file, the number of clock readings
    taken so far and the requests sent so far, oldest first. *)
Record State : Type := mkState {
  self : Client.t;
  session_headers : gmap string string;
  authfile : authfile_state;
  ticks : nat;
  sent : list Request.t
}.

(** The outside world: what the [n]-th reading of [datetime.now()]
    returns, and how the transport answers a request given the requests
    before it (a response, or an exception of its own). *)
Class Environment : Type := {
  clock : nat → datetime;
  server : list Request.t → Request.t → result Response.t
}.

(** State and exceptions: a raise keeps the state reached so far. *)
Definition Py (A : Type) : Type := State → result A * State.

Definition ret {A : Type} (a : A) : Py A := λ st, (Ok a, st).

Definition raise {A : Type} (e : exn) : Py A := λ st, (Err e, st).

Definition bind {A B : Type} (m : Py A) (k : A → Py B) : Py B :=
  λ st, match m st with
        | (Ok a, st') => k a st'
        | (Err e, st') => (Err e, st')
        end.

Definition lift {A : Type} (r : result A) : Py A := λ st, (r, st).

Global Instance Py_ret : MRet Py := @ret.
Global Instance Py_bind : MBind Py := λ A B k m, bind m k.

Definition get_self : Py Client.t := λ st, (Ok (self st), st).

Definition set_self (f : Client.t → Client.t) : Py unit :=
  λ st, (Ok tt, mkState (f (self st)) (session_headers st) (authfile st)
                  (ticks st) (sent st)).

Definition get_session_headers : Py (gmap string string) :=
  λ st, (Ok (session_headers st), st).

Definition set_session_headers (h : gmap string string) : Py unit :=
  λ st, (Ok tt, mkState (self st) h (authfile st) (ticks st) (sent st)).

Definition read_authfile : Py authfile_state := λ st, (Ok (authfile st), st).

Definition write_authfile (f : authfile_state) : Py unit :=
  λ st, (Ok tt, mkState (self st) (session_headers st) f (ticks st) (sent st)).

(** Attribute assignments [self.x = v]. *)
Definition with_userId (v : option string) (c : Client.t) : Client.t :=
  Client.mk v (Client.token c) (Client.expire c) (Client.rememberMe c)
    (Client.lastUpdate c) (Client.secretMachineId c).

Definition with_token (v : option string) (c : Client.t) : Client.t :=
  Client.mk (Client.userId c) v (Client.expire c) (Client.rememberMe c)
    (Client.lastUpdate c) (Client.secretMachineId c).

Definition with_expire (v : option datetime) (c : Client.t) : Client.t :=
  Client.mk (Client.userId c) (Client.token c) v (Client.rememberMe c)
    (Client.lastUpdate c) (Client.secretMachineId c).

Definition with_lastUpdate (v : option datetime) (c : Client.t) : Client.t :=
  Client.mk (Client.userId c) (Client.token c) (Client.expire c)
    (Client.rememberMe c) v (Client.secretMachineId c).

Definition with_secretMachineId (v : option string) (c : Client.t) : Client.t :=
  Client.mk (Client.userId c) (Client.token c) (Client.expire c)
    (Client.rememberMe c) (Client.lastUpdate c) v.

(** [needle in v] for a string [needle]: key membership in a dict,
    element equality in a list, substring in a string; other values are
    not iterable. *)
Definition py_contains (needle : string) (v : pyval) : result bool :=
  match v with
  | PDict d => Ok (bool_decide (is_Some (d !! needle)))
  | PList l =>
      Ok (existsb (λ x, match x with
                        | PStr s => String.eqb s needle
                        | _ => false
                        end) l)
  | PStr s => Ok (str_contains needle s)
  | _ => Err TypeError
  end.

(** [v[key]] for a string [key]. *)
Definition py_getitem (v : pyval) (key : string) : result pyval :=
  match v with
  | PDict d =>
      match d !! key with
      | Some x => Ok x
      | None => Err (KeyError key)
      end
  | _ => Err TypeError
  end.

(** A value of an attribute annotated [Optional[str]] as a Python value,
    and back.  A value of another type cannot be held by the typed
    field; the model stops with [TypeError] there. *)
Definition of_opt_str (o : option string) : pyval :=
  match o with
  | None => PNone
  | Some s => PStr s
  end.

Definition to_opt_str (v : pyval) : result (option string) :=
  match v with
  | PNone => Ok None
  | PStr s => Ok (Some s)
  | _ => Err TypeError
  end.

Section Operations.
Context `{Library} `{Environment}.

(** [datetime.now()]: the next reading of the clock. *)
Definition now : Py datetime :=
  λ st, (Ok (clock (ticks st)),
         mkState (self st) (session_headers st) (authfile st)
           (S (ticks st)) (sent st)).

(** The call of [func] on [args]: the request goes out with the
    session's headers and is recorded; the transport answers or raises.
    A [verb] that names no request method of the session gives nothing
    that can be called this way. *)
Definition session_call (verb : string) (url : string)
    (data json params : option pyval) : Py Response.t :=
  match session_method verb with
  | None => raise TypeError
  | Some m =>
      λ st, let req := Request.mk m url data json params (session_headers st) in
            (server (sent st) req,
             mkState (self st) (session_headers st) (authfile st)
               (ticks st) (sent st ++ [req]))
  end.

(** The [headers] property.  The warning it logs has no effect on the
    state modelled here. *)
Definition headers (self : Client.t) : gmap string string :=
  let default := {[ "User-Agent" := "neosvrpy/" +:+ version ]} in
  if negb (str_truthy (Client.userId self)) || negb (str_truthy (Client.token self))
  then default
  else <[ "Authorization" :=
            "neos " +:+ str_of_opt (Client.userId self) +:+ ":"
              +:+ str_of_opt (Client.token self) ]> default.

(** The renewal window of [_request], 3600000 seconds, in microseconds. *)
Definition renewal_window : Z := 3600000 * 1000000.

(** An argument goes into [args] only when it is truthy. *)
Definition if_truthy (a : option pyval) : option pyval :=
  if arg_truthy a then a else None.

(** What [_request] does with the response, inside the [with] block. *)
Definition classify (req : Response.t) : result pyval :=
  let status := Response.status_code req in
  if negb ((status =? 200)%Z || (status =? 204)%Z) then
    if str_contains "Invalid credentials" (Response.text req)
    then Err (InvalidCredentials (Response.text req))
    else if (status =? 403)%Z
    then Err (InvalidToken (TokenHeaders (Response.headers req)))
    else Err (NeosAPIException req None)
  else if (status =? 200)%Z then
    match Response.json req with
    | Some response =>
        has_message ← py_contains "message" response;
        if has_message : bool then
          message ← py_getitem response "message";
          Err (NeosAPIException req (Some message))
        else Ok response
    | None => Ok (PStr (Response.text req))
    end
  else Ok PNone.

(** [_request], first part (up to the [raise] of "Token expired"): the
    token refresh.  [keep_alive] is the call the method makes on itself
    with [ignoreUpdate=True]. *)
Definition refresh_gate (keep_alive : Py pyval) (ignoreUpdate : bool) : Py unit :=
  self ← get_self;
  match Client.lastUpdate self with
  | Some lastUpdate =>
      if negb ignoreUpdate then
        t ← now;
        if (t - lastUpdate <=? renewal_window)%Z then
          keep_alive;;
          t' ← now;
          set_self (with_lastUpdate (Some t'))
        else raise (InvalidToken (TokenMessage "Token expired"))
      else ret tt
  | None => ret tt
  end.

(** [_request], second part: build [args], call the session, classify
    the response. *)
Definition perform (verb path : string) (data json params : option pyval)
    : Py pyval :=
  req ← session_call verb (CLOUDX_NEOS_API +:+ path)
          (if_truthy data) (if_truthy json) (if_truthy params);
  lift (classify req).

(** [_request].  [fuel] bounds the depth of the recursion through the
    keep-alive; two levels are all it ever uses ([_request_rec_fuel]). *)
Fixpoint _request_rec (fuel : nat) (verb path : string)
    (data json params : option pyval) (ignoreUpdate : bool) : Py pyval :=
  match fuel with
  | O => raise RecursionError
  | S fuel' =>
      refresh_gate
        (_request_rec fuel' "patch" "/userSessions" None None None true)
        ignoreUpdate;;
      perform verb path data json params
  end.

Definition _request (verb path : string) (data json params : option pyval)
    (ignoreUpdate : bool) : Py pyval :=
  _request_rec 2 verb path data json params ignoreUpdate.

(** The keep-alive of the token refresh, as a call of its own. *)
Definition keep_alive : Py pyval :=
  _request "patch" "/userSessions" None None None true.

(** [clean_session]: the five assignments, then the [del], which raises
    [KeyError] when the session has no such header (the key is reported
    in lower case), then the [update]. *)
Definition clean_session : Py unit :=
  set_self (with_userId None);;
  set_self (with_token None);;
  set_self (with_expire None);;
  set_self (with_secretMachineId None);;
  set_self (with_lastUpdate None);;
  h ← get_session_headers;
  match h !! "Authorization" with
  | None => raise (KeyError "authorization")
  | Some _ =>
      set_session_headers (delete "Authorization" h);;
      self ← get_self;
      h' ← get_session_headers;
      set_session_headers (headers self ∪ h')
  end.

Definition logout : Py unit :=
  self ← get_self;
  _request "delete"
    ("/userSessions/" +:+ str_of_opt (Client.userId self) +:+ "/"
       +:+ str_of_opt (Client.token self))
    None None None true;;
  clean_session.

(** [datetime.fromisoformat] on a Python value. *)
Definition py_fromisoformat (v : pyval) : result datetime :=
  match v with
  | PStr s =>
      match fromisoformat s with
      | Some t => Ok t
      | None => Err (ValueError (VETimestamp s))
      end
  | _ => Err TypeError
  end.

Definition loadToken : Py unit :=
  f ← read_authfile;
  match f with
  | NoFile => raise NoTokenError
  | NotJSON => raise JSONDecodeError
  | Document session =>
      expire ← lift (v ← py_getitem session "expire"; py_fromisoformat v);
      t ← now;
      if (t <? expire)%Z then
        token ← lift (v ← py_getitem session "token"; to_opt_str v);
        set_self (with_token token);;
        userId ← lift (v ← py_getitem session "userId"; to_opt_str v);
        set_self (with_userId userId);;
        set_self (with_expire (Some expire));;
        secretMachineId ←
          lift (v ← py_getitem session "secretMachineId"; to_opt_str v);
        set_self (with_secretMachineId secretMachineId);;
        self ← get_self;
        h ← get_session_headers;
        set_session_headers (headers self ∪ h)
      else raise NoTokenError
  end.

(** The dictionary [saveToken] hands to [json.dump]. *)
Definition token_document (self : Client.t) (expire : datetime) : pyval :=
  PDict (<[ "userId" := of_opt_str (Client.userId self) ]>
        (<[ "expire" := PStr (isoformat expire) ]>
        (<[ "token" := of_opt_str (Client.token self) ]>
        (<[ "secretMachineId" := of_opt_str (Client.secretMachineId self) ]> ∅)))).

(** [saveToken]: opening the file with mode [w+] creates or empties it
    before the document is built; [self.expire.isoformat()] needs an
    [expire] that is not [None]. *)
Definition saveToken : Py unit :=
  write_authfile NotJSON;;
  self ← get_self;
  match Client.expire self with
  | None => raise AttributeError
  | Some expire => write_authfile (Document (token_document self expire))
  end.

(** [resolveLink]: the path must split into exactly three parts. *)
Definition resolveLink (link : NeosLink.t) : Py NeosDirectory.t :=
  match str_split "/"%char (ParseResult.path (NeosLink.assetUri link)) with
  | [_; user; record] =>
      response ← _request "get" ("/users/" +:+ user +:+ "/records/" +:+ record)
                   None None None false;
      lift (from_dict_NeosDirectory response)
  | parts => raise (ValueError (VEUnpack 3 (length parts)))
  end.

Definition getMessageLegacy (fromTime : option string) (maxItems : Z)
    (user : option string) (unreadOnly : bool) : Py pyval :=
  if str_truthy fromTime
  then raise (ValueError (VEMessage "fromTime is not yet implemented"))
  else
    let params : gmap string pyval :=
      <[ "unreadOnly" := PBool unreadOnly ]> (<[ "maxItems" := PInt maxItems ]> ∅) in
    let params :=
      match user with
      | Some u => if str_truthy user then <[ "user" := PStr u ]> params else params
      | None => params
      end in
    self ← get_self;
    _request "get" ("/users/" +:+ str_of_opt (Client.userId self) +:+ "/messages")
      None None (Some (PDict params)) false.
End Operations.

(** ** Well-formed record payloads

    A payload [d] encodes a record when each field of the record is the
    value [d] holds under the field's name: a string, integer or boolean
    as itself, an optional string as the string, [null] or a missing key,
    the record type as its enumeration value, a timestamp as a string
    [isoparse] reads, a list of strings as a list, and the link's URI as
    a string [urlparse] reads. *)

Section Encoding.
Context `{Library}.

Definition opt_str_value (o : option pyval) (r : option string) : Prop :=
  match r with
  | Some s => o = Some (PStr s)
  | None => o = None ∨ o = Some PNone
  end.

Definition datetime_value (o : option pyval) (t : datetime) : Prop :=
  ∃ s, o = Some (PStr s) ∧ isoparse s = Some t.

Definition opt_datetime_value (o : option pyval) (r : option datetime) : Prop :=
  match r with
  | Some t => datetime_value o t
  | None => o = None ∨ o = Some PNone
  end.

(** The five fields declared before [recordType]. *)
Definition encodes_leading (d : gmap string pyval)
    (id : string) (globalVersion localVersion : Z)
    (lastModifyingUserId : option string) (name : string) : Prop :=
  d !! "id" = Some (PStr id)
  ∧ d !! "globalVersion" = Some (PInt globalVersion)
  ∧ d !! "localVersion" = Some (PInt localVersion)
  ∧ opt_str_value (d !! "lastModifyingUserId") lastModifyingUserId
  ∧ d !! "name" = Some (PStr name).

Definition encodes_NeosRecord (d : gmap string pyval) (r : NeosRecord.t) : Prop :=
  encodes_leading d (NeosRecord.id r) (NeosRecord.globalVersion r)
    (NeosRecord.localVersion r) (NeosRecord.lastModifyingUserId r)
    (NeosRecord.name r)
  ∧ d !! "recordType" = Some (PStr (RecordType_value (NeosRecord.recordType r)))
  ∧ opt_str_value (d !! "path") (NeosRecord.path r)
  ∧ d !! "isPublic" = Some (PBool (NeosRecord.isPublic r))
  ∧ d !! "isForPatrons" = Some (PBool (NeosRecord.isForPatrons r))
  ∧ d !! "isListed" = Some (PBool (NeosRecord.isListed r))
  ∧ d !! "isDeleted" = Some (PBool (NeosRecord.isDeleted r))
  ∧ datetime_value (d !! "lastModificationTime") (NeosRecord.lastModificationTime r)
  ∧ d !! "visits" = Some (PInt (NeosRecord.visits r))
  ∧ d !! "rating" = Some (PInt (NeosRecord.rating r))
  ∧ d !! "ownerId" = Some (PStr (NeosRecord.ownerId r)).

(** The fields a derived class adds. *)
Definition encodes_own_fields (d : gmap string pyval) (x : record_instance) : Prop :=
  match x with
  | ILink l =>
      ∃ s, d !! "assetUri" = Some (PStr s)
           ∧ urlparse s = Some (NeosLink.assetUri l)
  | IDirectory y =>
      opt_str_value (d !! "lastModifyingMachineId")
        (NeosDirectory.lastModifyingMachineId y)
      ∧ d !! "ownerName" = Some (PStr (NeosDirectory.ownerName y))
      ∧ d !! "tags" = Some (PList (PStr <$> NeosDirectory.tags y))
      ∧ opt_datetime_value (d !! "creationTime") (NeosDirectory.creationTime y)
  | IObject o =>
      d !! "assetUri" = Some (PStr (NeosObject.assetUri o))
      ∧ d !! "lastModifyingMachineId"
        = Some (PStr (NeosObject.lastModifyingMachineId o))
      ∧ d !! "ownerName" = Some (PStr (NeosObject.ownerName o))
      ∧ d !! "tags" = Some (PList (PStr <$> NeosObject.tags o))
      ∧ datetime_value (d !! "creationTime") (NeosObject.creationTime o)
  | IWorld _ | ITexture _ | IAudio _ => True
  end.

(** A well-formed payload for the instance [x]: a dictionary holding
    the inherited fields and the fields of the class that
    [recordTypeMapping] gives for its record type. *)
Definition encodes (raw : pyval) (x : record_instance) : Prop :=
  ∃ d, raw = PDict d
       ∧ encodes_NeosRecord d (base_of x)
       ∧ class_of x = recordTypeMapping (NeosRecord.recordType (base_of x))
       ∧ encodes_own_fields d x.
End Encoding.

(** [c] occurs in [s]. *)
Fixpoint str_has_char (c : Ascii.ascii) (s : string) : bool :=
  match s with
  | EmptyString => false
  | String c' s' => Ascii.eqb c' c || str_has_char c s'
  end.

(** [Client()]: every field at its default. *)
Definition Client_default : Client.t :=
  Client.mk None None None false None None.

(** The request [_request] hands to the session, given the state it is
    sent from. *)
Definition request_of `{Library} (m : http_method) (path : string)
    (data json params : option pyval) (st : State) : Request.t :=
  Request.mk m (CLOUDX_NEOS_API +:+ path)
    (if_truthy data) (if_truthy json) (if_truthy params) (session_headers st).

(** The state after one more request has been recorded. *)
Definition record_sent (req : Request.t) (st : State) : State :=
  mkState (self st) (session_headers st) (authfile st) (ticks st)
    (sent st ++ [req]).

(** The state after one more reading of the clock. *)
Definition tick (st : State) : State :=
  mkState (self st) (session_headers st) (authfile st) (S (ticks st)) (sent st).

(** The state with the client replaced. *)
Definition with_self (c : Client.t) (st : State) : State :=
  mkState c (session_headers st) (authfile st) (ticks st) (sent st).

(** The state with the client's [userId] and [token] replaced. *)
Definition with_credentials (userId token : option string) (st : State) : State :=
  with_self (with_token token (with_userId userId (self st))) st.

(** The keep-alive request, as sent from [st]. *)
Definition keep_alive_request `{Library} (st : State) : Request.t :=
  request_of PATCH "/userSessions" None None None st.

(** The state once the keep-alive sent from [st] has succeeded: two clock
    readings, one request, and [lastUpdate] at the second reading. *)
Definition refreshed `{Library} `{Environment} (st : State) : State :=
  with_self (with_lastUpdate (Some (clock (S (ticks st)))) (self st))
    (tick (record_sent (keep_alive_request st) (tick st))).

(** What a call that goes through the token refresh of [_request] comes
    to, from the state [st] it is made in.  [k st1] is what the call does
    once the refresh has let it through, [st1] being the state then: [st]
    itself for a client without [lastUpdate], [refreshed st] after a
    keep-alive that returned.  A keep-alive that raised and a
    [lastUpdate] older than the window end the call before [k]. *)
Definition after_refresh `{Library} `{Environment} {A : Type}
    (st : State) (k : State → result A * State) : result A * State :=
  match Client.lastUpdate (self st) with
  | None => k st
  | Some lastUpdate =>
      if (clock (ticks st) - lastUpdate <=? renewal_window)%Z then
        match server (sent st) (keep_alive_request st) ≫= classify with
        | Ok _ => k (refreshed st)
        | Err e => (Err e, record_sent (keep_alive_request st) (tick st))
        end
      else (Err (InvalidToken (TokenMessage "Token expired")), tick st)
  end.

(** ** Concrete libraries, worlds and payloads

    Small instances on which the theorems below are exercised. *)

Module Sample.

(** 2022-01-01T00:00:00 and 2030-01-01T00:00:00 (UTC), in microseconds. *)
Definition t2022 : datetime := 1640995200000000%Z.
Definition t2030 : datetime := 1893456000000000%Z.

(** A library that knows these two timestamps, reads a URI that has
    neither scheme nor host as all path and rejects one with an opening
    bracket that is not closed, and has the dacite of version 1.6. *)
Definition library : Library := {|
  isoparse s :=
    if String.eqb s "2022-01-01T00:00:00" then Some t2022
    else if String.eqb s "2030-01-01T00:00:00" then Some t2030
    else None;
  urlparse s :=
    if str_has_char "[" s && negb (str_has_char "]" s) then None
    else Some (ParseResult.mk "" "" s "" "" "");
  isoformat t :=
    if (t =? t2030)%Z then "2030-01-01T00:00:00" else "2022-01-01T00:00:00";
  fromisoformat s :=
    if String.eqb s "2022-01-01T00:00:00" then Some t2022
    else if String.eqb s "2030-01-01T00:00:00" then Some t2030
    else None;
  version := "1.0.0";
  CLOUDX_NEOS_API := "https://api.example.com/api";
  from_dict_non_mapping _ _ := TypeError
|}.

Definition response (status : Z) (body : string) (js : option pyval)
    : Response.t :=
  Response.mk status body ∅ js.

(** One hour after [t2022], the clock advancing a second a reading. *)
Definition clock_2022 (n : nat) : datetime :=
  (t2022 + 3600 * 1000000 + Z.of_nat n * 1000000)%Z.

(** A server that answers every request with 200 and an empty object. *)
Definition env_ok : Environment := {|
  clock := clock_2022;
  server _ _ := Ok (response 200 "{}" (Some (PDict ∅)))
|}.

(** A server that answers 403 to PATCH and 200 to everything else. *)
Definition env_patch_403 : Environment := {|
  clock := clock_2022;
  server _ req :=
    match Request.method req with
    | PATCH => Ok (response 403 "Forbidden" None)
    | _ => Ok (response 200 "{}" (Some (PDict ∅)))
    end
|}.

(** A server whose every answer is [resp]. *)
Definition env_always (resp : Response.t) : Environment := {|
  clock := clock_2022;
  server _ _ := Ok resp
|}.

(** A server that cannot be reached. *)
Definition env_down : Environment := {|
  clock := clock_2022;
  server _ _ := Err (RequestException "connection refused")
|}.

(** A client logged in at [t2022], with its header on the session. *)
Definition client_in : Client.t :=
  Client.mk (Some "U-abc") (Some "tok") (Some t2030) false (Some t2022)
    (Some "machine").

Definition state_in : State :=
  mkState client_in
    (<[ "Authorization" := "neos U-abc:tok" ]>
       {[ "User-Agent" := "neosvrpy/1.0.0" ]})
    NoFile 0 [].

(** A client that never logged in. *)
Definition state_out : State :=
  mkState Client_default {[ "User-Agent" := "python-requests" ]} NoFile 0 [].

(** A client whose last update is more than 3600000 seconds old. *)
Definition state_stale : State :=
  mkState (with_lastUpdate (Some (t2022 - 3600001 * 1000000)%Z) client_in)
    (session_headers state_in) NoFile 0 [].

Definition base_fields (id name type : string) : gmap string pyval :=
  <[ "id" := PStr id ]> (
  <[ "globalVersion" := PInt 3 ]> (
  <[ "localVersion" := PInt 1 ]> (
  <[ "lastModifyingUserId" := PNone ]> (
  <[ "name" := PStr name ]> (
  <[ "recordType" := PStr type ]> (
  <[ "path" := PStr "Inventory" ]> (
  <[ "isPublic" := PBool false ]> (
  <[ "isForPatrons" := PBool false ]> (
  <[ "isListed" := PBool true ]> (
  <[ "isDeleted" := PBool false ]> (
  <[ "lastModificationTime" := PStr "2022-01-01T00:00:00" ]> (
  <[ "visits" := PInt 0 ]> (
  <[ "rating" := PInt 0 ]> (
  <[ "ownerId" := PStr "U-abc" ]> ∅)))))))))))))).

Definition base_record (id name : string) (type : RecordType) : NeosRecord.t :=
  NeosRecord.mk id 3 1 None name type (Some "Inventory") false false true
    false t2022 0 0 "U-abc".

Definition link_payload : pyval :=
  PDict (<[ "assetUri" := PStr "/U-abc/R-def" ]> (base_fields "R-1" "Shared" "link")).

Definition link_instance : NeosLink.t :=
  NeosLink.mk (base_record "R-1" "Shared" LINK)
    (ParseResult.mk "" "" "/U-abc/R-def" "" "" "").

Definition directory_payload : pyval :=
  PDict (<[ "ownerName" := PStr "abc" ]> (
         <[ "tags" := PList [PStr "a"; PStr "b"] ]> (
         <[ "creationTime" := PStr "2022-01-01T00:00:00" ]> (
         base_fields "R-def" "Foo" "directory")))).

Definition directory_instance : NeosDirectory.t :=
  NeosDirectory.mk (base_record "R-def" "Foo" DIRECTORY) None "abc" ["a"; "b"]
    (Some t2022).

Definition world_payload : pyval := PDict (base_fields "R-3" "Hub" "world").

Definition world_instance : NeosWorld.t :=
  NeosWorld.mk (base_record "R-3" "Hub" WORLD).

(** A payload of a record type the enumeration does not have. *)
Definition material_payload : pyval := PDict (base_fields "R-4" "Gold" "material").

(** The document [saveToken] writes for [client_in]. *)
Definition saved_document : pyval :=
  PDict (<[ "userId" := PStr "U-abc" ]> (
         <[ "expire" := PStr "2030-01-01T00:00:00" ]> (
         <[ "token" := PStr "tok" ]> (
         <[ "secretMachineId" := PStr "machine" ]> ∅)))).


(** A new client next to the file [client_in] saved. *)
Definition state_restarted : State :=
  mkState Client_default {[ "User-Agent" := "python-requests" ]}
    (Document saved_document) 0 [].



End Sample.

(** ** The rest of classes.py: enumerations *)

Module CurrentSessionAccessLevel.
Inductive t : Type :=
  | PRIVATE | LAN | FRIENDS | FRIENDSOFFRIENDS | REGISTEREDUSERS | ANYONE.

Definition value (m : t) : Z :=
  match m with
  | PRIVATE => 0
  | LAN => 1
  | FRIENDS => 2
  | FRIENDSOFFRIENDS => 3
  | REGISTEREDUSERS => 4
  | ANYONE => 5
  end.

(** [self.name]. *)
Definition name (m : t) : string :=
  match m with
  | PRIVATE => "PRIVATE"
  | LAN => "LAN"
  | FRIENDS => "FRIENDS"
  | FRIENDSOFFRIENDS => "FRIENDSOFFRIENDS"
  | REGISTEREDUSERS => "REGISTEREDUSERS"
  | ANYONE => "ANYONE"
  end.

(** The dictionary [text] of [__str__]. *)
Definition text : gmap string string :=
  <[ "PRIVATE" := "Private" ]> (
  <[ "LAN" := "LAN" ]> (
  <[ "FRIENDS" := "Contacts" ]> (
  <[ "FRIENDSOFFRIENDS" := "Contacts+" ]> (
  <[ "REGISTEREDUSERS" := "Registered Users" ]> (
  <[ "ANYONE" := "Anyone" ]> ∅))))).

(** [__str__]: [text[self.name]]. *)
Definition str (m : t) : result string :=
  match text !! name m with
  | Some s => Ok s
  | None => Err (KeyError (name m))
  end.
End CurrentSessionAccessLevel.

Module NeosCloudVar.
Record t : Type := mk {
  ownerId : string;
  path : string;
  value : string;
  partitionKey : string;
  rowKey : string;
  timestamp : string;
  eTag : string
}.
End NeosCloudVar.

(** ** The rest of client.py *)

(** [s.split(sep)] for a separator of one character or more: the
    occurrences of [sep] are taken from the left and do not overlap.
    [skip] counts the characters of a separator still to be passed over. *)
Fixpoint str_split_by_go (sep : string) (skip : nat) (s : string) : list string :=
  match s with
  | EmptyString => [EmptyString]
  | String c s' =>
      match skip with
      | S skip' => str_split_by_go sep skip' s'
      | O =>
          if String.prefix sep s
          then EmptyString :: str_split_by_go sep (String.length sep - 1) s'
          else match str_split_by_go sep 0 s' with
               | [] => [String c EmptyString]
               | w :: ws => String c w :: ws
               end
      end
  end.

Definition str_split_by (sep s : string) : list string :=
  str_split_by_go sep 0 s.

(** [neosDBSignature]: [url.split("//")[1].split(".")[0]]; [None] stands
    for the [IndexError] of a subscript out of range. *)
Definition neosDBSignature (url : string) : option string :=
  match str_split_by "//" url with
  | _ :: part :: _ =>
      match str_split "."%char part with
      | sig :: _ => Some sig
      | [] => None
      end
  | _ => None
  end.

Definition neosDbToHttp (iconUrl : string) : option string :=
  sig ← neosDBSignature iconUrl;
  Some ("https://assets.neos.com/assets" +:+ sig).

(** [for x in v]: the items of a list, the keys of a dict, the characters
    of a string; other values are not iterable.  The keys come in the
    order of the finite map, not in insertion order: what is stated
    below of a loop over the keys does not depend on their order. *)
Definition py_iter (v : pyval) : result (list pyval) :=
  match v with
  | PList l => Ok l
  | PDict d => Ok ((λ kv, PStr kv.1) <$> map_to_list d)
  | PStr s => Ok ((λ c, PStr (String c EmptyString)) <$> String.list_ascii_of_string s)
  | _ => Err TypeError
  end.

(** The result of [getOwnerType], from [neosvrpy.utils]: [client.py]
    names the members [USER] and [GROUP] of [OwnerType]; [OTHER] is any
    other member. *)
Inductive OwnerType : Type := USER | GROUP | OTHER.

Class Utils : Type := {
  getOwnerType : string → OwnerType
}.

(** [dataclasses.asdict] of a [LoginDetails]. *)
Definition LoginDetails_asdict (data : LoginDetails.t) : pyval :=
  PDict (<[ "ownerId" := of_opt_str (LoginDetails.ownerId data) ]> (
         <[ "username" := of_opt_str (LoginDetails.username data) ]> (
         <[ "email" := of_opt_str (LoginDetails.email data) ]> (
         <[ "password" := of_opt_str (LoginDetails.password data) ]> (
         <[ "secretMachineId" := PStr (LoginDetails.secretMachineId data) ]> (
         <[ "rememberMe" := LoginDetails.rememberMe data ]> ∅)))))).

Section MoreOperations.
Context `{Library} `{Environment} `{Utils}.

(** [login]: the POST, then the five assignments in order, then the
    update of the session's headers.  As in [loadToken], a value that is
    neither a string nor [None] cannot be held by a typed field. *)
Definition login (data : LoginDetails.t) : Py unit :=
  response ← _request "post" "/userSessions" None
                (Some (LoginDetails_asdict data)) None false;
  userId ← lift (v ← py_getitem response "userId"; to_opt_str v);
  set_self (with_userId userId);;
  token ← lift (v ← py_getitem response "token"; to_opt_str v);
  set_self (with_token token);;
  secretMachineId ← lift (v ← py_getitem response "secretMachineId"; to_opt_str v);
  set_self (with_secretMachineId secretMachineId);;
  expire ← lift (v ← py_getitem response "expire"; hook_isoparse v);
  set_self (with_expire (Some expire));;
  t ← now;
  set_self (with_lastUpdate (Some t));;
  self ← get_self;
  h ← get_session_headers;
  set_session_headers (headers self ∪ h).

(** [getInventory]: the response is iterated by [processRecordList]. *)
Definition getInventory : Py (list record_instance) :=
  self ← get_self;
  response ← _request "get"
                ("/users/" +:+ str_of_opt (Client.userId self) +:+ "/records")
                None None (Some (PDict {[ "path" := PStr "Inventory" ]})) false;
  lift (data ← py_iter response; processRecordList data).

(** [getOwnerPath]. *)
Definition getOwnerPath (ownerId : string) : result string :=
  match getOwnerType ownerId with
  | USER => Ok "users"
  | GROUP => Ok "groups"
  | OTHER => Err (ValueError (VEMessage ("invalid ownerType for " +:+ ownerId)))
  end.

Definition from_dict_NeosCloudVar (data : pyval) : result NeosCloudVar.t :=
  d ← as_dict "ownerId" data;
  ownerId ← field_str d "ownerId";
  path ← field_str d "path";
  value ← field_str d "value";
  partitionKey ← field_str d "partitionKey";
  rowKey ← field_str d "rowKey";
  timestamp ← field_str d "timestamp";
  eTag ← field_str d "eTag";
  Ok (NeosCloudVar.mk ownerId path value partitionKey rowKey timestamp eTag).

(** The list comprehension of [listCloudVar]. *)
Fixpoint decode_cloud_vars (response : list pyval) : result (list NeosCloudVar.t) :=
  match response with
  | [] => Ok []
  | cloud_var :: response' =>
      x ← from_dict_NeosCloudVar cloud_var;
      xs ← decode_cloud_vars response';
      Ok (x :: xs)
  end.

(** In the three methods below the path is an f-string: [getOwnerPath]
    is evaluated, and may raise, before [_request] is called. *)
Definition listCloudVar (ownerId : string) : Py (list NeosCloudVar.t) :=
  prefix ← lift (getOwnerPath ownerId);
  response ← _request "get" ("/" +:+ prefix +:+ "/" +:+ ownerId +:+ "/vars")
                None None None false;
  lift (items ← py_iter response; decode_cloud_vars items).

Definition getCloudVar (ownerId path : string) : Py NeosCloudVar.t :=
  prefix ← lift (getOwnerPath ownerId);
  response ← _request "get"
                ("/" +:+ prefix +:+ "/" +:+ ownerId +:+ "/vars/" +:+ path)
                None None None false;
  lift (from_dict_NeosCloudVar response).

Definition setCloudVar (ownerId path value : string) : Py pyval :=
  prefix ← lift (getOwnerPath ownerId);
  _request "put" ("/" +:+ prefix +:+ "/" +:+ ownerId +:+ "/vars/" +:+ path)
    None
    (Some (PDict (<[ "ownerId" := PStr ownerId ]> (
                  <[ "path" := PStr path ]> (
                  <[ "value" := PStr value ]> ∅)))))
    None false.

End MoreOperations.

(** [data] is a JSON object that holds the seven fields of [x], as
    strings; other keys may be present. *)
Definition encodes_cloud_var (data : pyval) (x : NeosCloudVar.t) : Prop :=
  ∃ d, data = PDict d
       ∧ d !! "ownerId" = Some (PStr (NeosCloudVar.ownerId x))
       ∧ d !! "path" = Some (PStr (NeosCloudVar.path x))
       ∧ d !! "value" = Some (PStr (NeosCloudVar.value x))
       ∧ d !! "partitionKey" = Some (PStr (NeosCloudVar.partitionKey x))
       ∧ d !! "rowKey" = Some (PStr (NeosCloudVar.rowKey x))
       ∧ d !! "timestamp" = Some (PStr (NeosCloudVar.timestamp x))
       ∧ d !! "eTag" = Some (PStr (NeosCloudVar.eTag x)).

(** The number of occurrences of [c] in [s]. *)
Fixpoint str_count (c : Ascii.ascii) (s : string) : nat :=
  match s with
  | EmptyString => 0
  | String c' s' => (if Ascii.eqb c' c then 1 else 0) + str_count c s'
  end.

(** The client's fields other than [lastUpdate]. *)
Definition same_credentials (c c' : Client.t) : Prop :=
  Client.userId c' = Client.userId c
  ∧ Client.token c' = Client.token c
  ∧ Client.expire c' = Client.expire c
  ∧ Client.rememberMe c' = Client.rememberMe c
  ∧ Client.secretMachineId c' = Client.secretMachineId c.

(** ** Further concrete worlds *)

Module Scenario.

(** The body of a successful login. *)
Definition session_document : gmap string pyval :=
  <[ "userId" := PStr "U-abc" ]> (
  <[ "token" := PStr "tok" ]> (
  <[ "secretMachineId" := PStr "machine" ]> (
  <[ "expire" := PStr "2030-01-01T00:00:00" ]> ∅))).

(** A server that answers every request with the JSON object [d]. *)
Definition env_json (d : gmap string pyval) : Environment :=
  Sample.env_always (Sample.response 200 "{...}" (Some (PDict d))).

(** A server that answers every request with the JSON array [l]. *)
Definition env_array (l : list pyval) : Environment :=
  Sample.env_always (Sample.response 200 "[...]" (Some (PList l))).

Definition details : LoginDetails.t :=
  LoginDetails.mk None (Some "alice") None (Some "secret") "machine" (PBool false).

(** Owners are told apart by the first letter of their id. *)
Definition utils : Utils := {|
  getOwnerType ownerId :=
    match ownerId with
    | String "U" _ => USER
    | String "G" _ => GROUP
    | _ => OTHER
    end
|}.

(** A cloud variable and its JSON object. *)
Definition cloud_var (value : string) : NeosCloudVar.t :=
  NeosCloudVar.mk "U-abc" "U-abc.colour" value "pk" "rk" "2022-01-01T00:00:00Z" "etag".

Definition cloud_var_fields (value : string) : gmap string pyval :=
  <[ "ownerId" := PStr "U-abc" ]> (
  <[ "path" := PStr "U-abc.colour" ]> (
  <[ "value" := PStr value ]> (
  <[ "partitionKey" := PStr "pk" ]> (
  <[ "rowKey" := PStr "rk" ]> (
  <[ "timestamp" := PStr "2022-01-01T00:00:00Z" ]> (
  <[ "eTag" := PStr "etag" ]> ∅)))))).



(** A logged-in client that never got an [expire], next to a saved
    token file. *)
Definition state_no_expire : State :=
  mkState (with_expire None Sample.client_in) (session_headers Sample.state_in)
    (Document Sample.saved_document) 0 [].

(** The fields of [Sample.directory_payload], and a record of type
    ["object"] that has the fields of a directory. *)
Definition directory_fields (type : string) : gmap string pyval :=
  <[ "ownerName" := PStr "abc" ]> (
  <[ "tags" := PList [PStr "a"; PStr "b"] ]> (
  <[ "creationTime" := PStr "2022-01-01T00:00:00" ]> (
  Sample.base_fields "R-def" "Foo" type))).

Definition object_as_directory : NeosDirectory.t :=
  NeosDirectory.mk (Sample.base_record "R-def" "Foo" OBJECT) None "abc" ["a"; "b"]
    (Some Sample.t2022).


End Scenario.

(** * Properties *)

(** ** The two monads *)

Lemma rbind_Ok {A B : Type} (m : result A) (k : A → result B) (b : B) :
  (m ≫= k) = Ok b → ∃ a, m = Ok a ∧ k a = Ok b.
Proof. destruct m as [a|e]; [eauto | discriminate]. Qed.

Lemma rfmap_Ok {A B : Type} (f : A → B) (m : result A) (b : B) :
  f <$> m = Ok b → ∃ a, m = Ok a ∧ b = f a.
Proof.
  destruct m as [a|e]; [|discriminate].
  intros [= <-]. eauto.
Qed.

Lemma bind_Ok {A B : Type} (m : Py A) (k : A → Py B) st a st' :
  m st = (Ok a, st') → (m ≫= k) st = k a st'.
Proof. intros Hm. unfold mbind, Py_bind, bind. by rewrite Hm. Qed.

Lemma bind_Err {A B : Type} (m : Py A) (k : A → Py B) st e st' :
  m st = (Err e, st') → (m ≫= k) st = (Err e, st').
Proof. intros Hm. unfold mbind, Py_bind, bind. by rewrite Hm. Qed.

(** ** Record decoding *)

Lemma RecordType_of_value_value (t : RecordType) :
  RecordType_of_value (PStr (RecordType_value t)) = Some t.
Proof. by destruct t. Qed.

(** Only the six values of the enumeration are accepted. *)
Lemma RecordType_of_value_Some (v : pyval) (t : RecordType) :
  RecordType_of_value v = Some t → v = PStr (RecordType_value t).
Proof.
  destruct v as [| | | |s| |]; try discriminate. simpl.
  repeat match goal with
         | |- context [String.eqb s ?x] =>
             destruct (String.eqb_spec s x) as [->|_];
             [intros Ht; injection Ht as <-; reflexivity|]
         end.
  discriminate.
Qed.

Lemma all_str_fmap (l : list string) : all_str (PStr <$> l) = Some l.
Proof.
  induction l as [|s l IH]; [done|].
  rewrite fmap_cons. cbn [all_str]. by rewrite IH.
Qed.

Section DecodingFacts.
Context `{Library}.

Lemma field_opt_str_value d f r :
  opt_str_value (d !! f) r → field_opt_str d f = Ok r.
Proof.
  unfold field_opt_str. destruct r as [s|]; simpl.
  - by intros ->.
  - by intros [-> | ->].
Qed.

Lemma field_datetime_value d f t :
  datetime_value (d !! f) t → field_datetime d f = Ok t.
Proof.
  intros (s & Hs & Hparse). unfold field_datetime. rewrite Hs. simpl.
  by rewrite Hparse.
Qed.

Lemma field_opt_datetime_value d f r :
  opt_datetime_value (d !! f) r → field_opt_datetime d f = Ok r.
Proof.
  unfold field_opt_datetime. destruct r as [t|]; simpl.
  - intros (s & Hs & Hparse). rewrite Hs. simpl. by rewrite Hparse.
  - by intros [-> | ->].
Qed.

Lemma field_list_str_value d f l :
  d !! f = Some (PList (PStr <$> l)) → field_list_str d f = Ok l.
Proof. intros Hl. unfold field_list_str. by rewrite Hl, all_str_fmap. Qed.

(** The base decoder returns exactly the record a payload encodes. *)
Lemma fields_NeosRecord_encodes d r :
  encodes_NeosRecord d r → fields_NeosRecord d = Ok r.
Proof.
  destruct r. unfold encodes_NeosRecord, encodes_leading. simpl.
  intros ((Hid & Hgv & Hlv & Hlmu & Hname) & Hrt & Hpath & Hpub & Hpat
          & Hlis & Hdel & Hlmt & Hvis & Hrat & Hown).
  unfold fields_NeosRecord, field_str, field_int, field_bool, field_RecordType.
  rewrite Hid, Hgv, Hlv, (field_opt_str_value _ _ _ Hlmu), Hname, Hrt.
  rewrite RecordType_of_value_value.
  rewrite (field_opt_str_value _ _ _ Hpath), Hpub, Hpat, Hlis, Hdel.
  by rewrite (field_datetime_value _ _ _ Hlmt), Hvis, Hrat, Hown.
Qed.

(** A payload whose record type is not in the enumeration stops the
    base decoder at that field. *)
Lemma fields_NeosRecord_unknown d v id gv lv lmu name :
  encodes_leading d id gv lv lmu name →
  d !! "recordType" = Some v →
  RecordType_of_value v = None →
  fields_NeosRecord d = Err (ValueError (VEEnum "RecordType" v)).
Proof.
  intros (Hid & Hgv & Hlv & Hlmu & Hname) Hrt Hv.
  unfold fields_NeosRecord, field_str, field_int, field_RecordType.
  by rewrite Hid, Hgv, Hlv, (field_opt_str_value _ _ _ Hlmu), Hname, Hrt, Hv.
Qed.

(** Whatever the base decoder accepts has a record type of the
    enumeration under ["recordType"]. *)
Lemma fields_NeosRecord_recordType d r :
  fields_NeosRecord d = Ok r →
  d !! "recordType" = Some (PStr (RecordType_value (NeosRecord.recordType r))).
Proof.
  unfold fields_NeosRecord. intros Hr.
  repeat (apply rbind_Ok in Hr as (? & ? & Hr)).
  injection Hr as <-. simpl.
  match goal with
  | Hrt : field_RecordType _ _ = Ok _ |- _ =>
      unfold field_RecordType in Hrt;
      destruct (d !! "recordType") as [v|]; [|discriminate];
      destruct (RecordType_of_value v) as [t|] eqn:Hv; [|discriminate];
      injection Hrt as <-; by rewrite (RecordType_of_value_Some _ _ Hv)
  end.
Qed.

Lemma from_dict_encodes raw x :
  encodes raw x →
  from_dict_NeosRecord raw = Ok (base_of x)
  ∧ from_dict (recordTypeMapping (NeosRecord.recordType (base_of x))) raw = Ok x.
Proof.
  intros (d & -> & Hbase & Hcls & Hown).
  apply fields_NeosRecord_encodes in Hbase.
  split; [exact Hbase|].
  rewrite <- Hcls. clear Hcls.
  destruct x as [[]|[]|[]|[]|[]|[]]; simpl in *;
    unfold from_dict_NeosDirectory, from_dict_NeosLink, from_dict_NeosObject,
      from_dict_NeosRecord; simpl; rewrite Hbase; simpl; try done.
  - destruct Hown as (Hm & Hn & Ht & Hc).
    rewrite (field_opt_str_value _ _ _ Hm). unfold field_str. rewrite Hn.
    by rewrite (field_list_str_value _ _ _ Ht), (field_opt_datetime_value _ _ _ Hc).
  - destruct Hown as (s & Hs & Hurl). unfold field_ParseResult.
    by rewrite Hs, Hurl.
  - destruct Hown as (Ha & Hm & Hn & Ht & Hc).
    unfold field_str. rewrite Ha, Hm, Hn.
    by rewrite (field_list_str_value _ _ _ Ht), (field_datetime_value _ _ _ Hc).
Qed.

(** Whatever [from_dict] returns is an instance of the class asked for,
    and its inherited fields are what the base decoder reads from the
    same payload. *)
Lemma from_dict_class_base cls raw x :
  from_dict cls raw = Ok x →
  class_of x = cls ∧ from_dict_NeosRecord raw = Ok (base_of x).
Proof.
  destruct cls; simpl; intros Hx; apply rfmap_Ok in Hx as (y & Hy & ->);
    simpl; (split; [done|]); try done;
    unfold from_dict_NeosDirectory, from_dict_NeosLink, from_dict_NeosObject in Hy;
    unfold from_dict_NeosRecord;
    destruct (as_dict "id" raw) as [d|]; try discriminate; simpl in *;
    repeat (apply rbind_Ok in Hy as (? & ? & Hy));
    by injection Hy as <-.
Qed.

Lemma processRecordList_loop_encodes data xs acc :
  Forall2 encodes data xs →
  processRecordList_loop data acc = Ok (acc ++ xs).
Proof.
  intros Hall. revert acc.
  induction Hall as [|raw x data xs Hx _ IH]; intros acc; simpl.
  - by rewrite app_nil_r.
  - destruct (from_dict_encodes _ _ Hx) as [-> Hfull]. simpl.
    rewrite Hfull. simpl. rewrite IH. by rewrite <- app_assoc.
Qed.

Lemma processRecordList_loop_unknown pre xs d v post acc id gv lv lmu name :
  Forall2 encodes pre xs →
  encodes_leading d id gv lv lmu name →
  d !! "recordType" = Some v →
  RecordType_of_value v = None →
  processRecordList_loop (pre ++ PDict d :: post) acc
  = Err (ValueError (VEEnum "RecordType" v)).
Proof.
  intros Hall Hlead Hrt Hv. revert acc.
  induction Hall as [|raw x data xs Hx _ IH]; intros acc; simpl.
  - unfold from_dict_NeosRecord. simpl.
    by rewrite (fields_NeosRecord_unknown _ _ _ _ _ _ _ Hlead Hrt Hv).
  - destruct (from_dict_encodes _ _ Hx) as [-> Hfull]. simpl.
    rewrite Hfull. simpl. apply IH.
Qed.

(** The loop never drops or reorders: a returned list has one instance
    per payload, in order, each of the class the table gives for the
    record type read from that payload. *)
Lemma processRecordList_loop_aligned data acc out :
  processRecordList_loop data acc = Ok out →
  ∃ xs, out = acc ++ xs
        ∧ Forall2 (λ raw x,
            from_dict_NeosRecord raw = Ok (base_of x)
            ∧ class_of x = recordTypeMapping (NeosRecord.recordType (base_of x)))
            data xs.
Proof.
  revert acc. induction data as [|raw data IH]; intros acc; simpl.
  - intros [= <-]. exists []. by rewrite app_nil_r.
  - intros Hloop.
    apply rbind_Ok in Hloop as (item & Hitem & Hloop).
    apply rbind_Ok in Hloop as (x & Hx & Hloop).
    apply IH in Hloop as (xs & -> & Hxs).
    apply from_dict_class_base in Hx as [Hcls Hbase].
    assert (item = base_of x) as -> by congruence.
    exists (x :: xs). split; [by rewrite <- app_assoc|].
    by constructor.
Qed.

(** A payload of unknown record type anywhere in the list makes the
    whole call fail, whatever else the list holds. *)
Lemma processRecordList_unknown_fails data d v :
  PDict d ∈ data →
  d !! "recordType" = Some v →
  RecordType_of_value v = None →
  is_Err (processRecordList data).
Proof.
  intros Hin Hrt Hv.
  destruct (processRecordList data) as [out|] eqn:Hout; [|done].
  apply processRecordList_loop_aligned in Hout as (xs & _ & Hall).
  apply list_elem_of_lookup in Hin as [i Hi].
  destruct (Forall2_lookup_l _ _ _ _ _ Hall Hi) as (x & _ & Hbase & _).
  unfold from_dict_NeosRecord in Hbase. simpl in Hbase.
  apply fields_NeosRecord_recordType in Hbase.
  rewrite Hrt in Hbase. injection Hbase as ->.
  by rewrite RecordType_of_value_value in Hv.
Qed.

(** C1.  On a list of well-formed payloads (each field a value of its
    type, the timestamps strings [isoparse] reads and a link's URI a
    string [urlparse] reads), [processRecordList] returns, for each
    payload and in order, the instance that payload encodes: an
    instance of the class [recordTypeMapping] gives for the payload's
    [recordType], every inherited field holding the payload's value.
    Whatever list it returns, on any input, has one instance per payload,
    of the class given by the table, with the inherited fields the base
    decoder reads from that payload.  A payload whose [recordType] is
    not one of the six values is never skipped: the call raises, and
    when the payloads before it are well formed the exception is the
    [ValueError] of the enumeration lookup. *)
Theorem processRecordList_decodes (data : list pyval) :
  (∀ xs, Forall2 encodes data xs → processRecordList data = Ok xs)
  ∧ (∀ out,
       processRecordList data = Ok out →
       Forall2 (λ raw x,
           from_dict_NeosRecord raw = Ok (base_of x)
           ∧ class_of x = recordTypeMapping (NeosRecord.recordType (base_of x)))
         data out)
  ∧ (∀ d v,
       PDict d ∈ data →
       d !! "recordType" = Some v →
       RecordType_of_value v = None →
       is_Err (processRecordList data))
  ∧ (∀ xs d v post id gv lv lmu name,
       Forall2 encodes data xs →
       encodes_leading d id gv lv lmu name →
       d !! "recordType" = Some v →
       RecordType_of_value v = None →
       processRecordList (data ++ PDict d :: post)
       = Err (ValueError (VEEnum "RecordType" v))).
Proof.
  unfold processRecordList. split; [|split; [|split]].
  - intros xs Hall. by rewrite (processRecordList_loop_encodes _ _ [] Hall).
  - intros out Hout.
    by apply processRecordList_loop_aligned in Hout as (xs & -> & Hall).
  - intros d v. apply processRecordList_unknown_fails.
  - intros xs d v post id gv lv lmu name Hall Hlead Hrt Hv.
    by eapply processRecordList_loop_unknown.
Qed.
End DecodingFacts.

(** Closes the goals left by a concrete payload: lookups in a literal
    dictionary, and the alternatives and witnesses of the optional and
    parsed fields. *)
Ltac sample_payload :=
  repeat match goal with
         | |- _ ∧ _ => split
         | |- Forall2 _ [] [] => constructor
         | |- Forall2 _ (_ :: _) (_ :: _) => constructor
         | |- encodes _ _ => eexists; split; [reflexivity|]
         | |- encodes_NeosRecord _ _ => unfold encodes_NeosRecord
         | |- encodes_leading _ _ _ _ _ _ => unfold encodes_leading
         | |- encodes_own_fields _ _ => unfold encodes_own_fields
         | |- datetime_value _ _ => vm_compute
         | |- opt_datetime_value _ _ => vm_compute
         | |- opt_str_value _ _ => vm_compute
         | |- _ ∨ _ => first [left; reflexivity | right; reflexivity]
         | |- ∃ _, _ => eexists
         | |- True => exact I
         | |- _ = _ => vm_compute; reflexivity
         end.

Lemma processRecordList_decodes_witness :
  @processRecordList Sample.library
    [Sample.link_payload; Sample.directory_payload; Sample.world_payload]
  = Ok [ILink Sample.link_instance; IDirectory Sample.directory_instance;
        IWorld Sample.world_instance]
  ∧ @processRecordList Sample.library
      ([Sample.link_payload; Sample.directory_payload; Sample.world_payload]
         ++ [Sample.material_payload; Sample.world_payload])
    = Err (ValueError (VEEnum "RecordType" (PStr "material"))).
Proof.
  destruct (@processRecordList_decodes Sample.library
              [Sample.link_payload; Sample.directory_payload; Sample.world_payload])
    as (Hok & _ & _ & Hunknown).
  assert (Forall2 (@encodes Sample.library)
            [Sample.link_payload; Sample.directory_payload; Sample.world_payload]
            [ILink Sample.link_instance; IDirectory Sample.directory_instance;
             IWorld Sample.world_instance]) as Hall by sample_payload.
  split; [exact (Hok _ Hall)|].
  apply (Hunknown _ (Sample.base_fields "R-4" "Gold" "material") (PStr "material")
           [Sample.world_payload] "R-4" 3%Z 1%Z None "Gold" Hall).
  - sample_payload.
  - vm_compute. reflexivity.
  - reflexivity.
Defined.

(** A link whose URI [urlparse] rejects is not well formed: the
    [ValueError] of the hook ends the call. *)
Example processRecordList_bad_uri :
  @processRecordList Sample.library
    [Sample.world_payload;
     PDict (<[ "assetUri" := PStr "neosrec://[U-abc/R-def" ]>
              (Sample.base_fields "R-1" "Shared" "link"))]
  = Err (ValueError (VEUrl "neosrec://[U-abc/R-def")).
Proof. vm_compute. reflexivity. Qed.

(** ** [_request] *)

Section RequestFacts.
Context `{Library} `{Environment}.

Lemma refresh_gate_bypassed ka st :
  refresh_gate ka true st = (Ok tt, st).
Proof.
  unfold refresh_gate, mbind, Py_bind, bind, get_self. cbn.
  by destruct (Client.lastUpdate (self st)).
Qed.

Lemma refresh_gate_no_lastUpdate ka ignoreUpdate st :
  Client.lastUpdate (self st) = None →
  refresh_gate ka ignoreUpdate st = (Ok tt, st).
Proof.
  intros Hlu. unfold refresh_gate, mbind, Py_bind, bind, get_self. cbn.
  by rewrite Hlu.
Qed.

(** With [ignoreUpdate=True] the method is its second part alone. *)
Lemma _request_rec_bypassed fuel verb path data json params st :
  _request_rec (S fuel) verb path data json params true st
  = perform verb path data json params st.
Proof.
  cbn [_request_rec].
  by rewrite (bind_Ok _ _ _ _ _ (refresh_gate_bypassed _ st)).
Qed.

Lemma refresh_gate_ext ka ka' ignoreUpdate st :
  (∀ st', ka st' = ka' st') →
  refresh_gate ka ignoreUpdate st = refresh_gate ka' ignoreUpdate st.
Proof.
  intros Hka. unfold refresh_gate, mbind, Py_bind, bind, get_self, now. cbn.
  destruct (Client.lastUpdate (self st)) as [lu|]; [|done].
  destruct ignoreUpdate; cbn; [done|].
  destruct (clock (ticks st) - lu <=? renewal_window)%Z; [|done].
  by rewrite Hka.
Qed.

(** The recursion is two calls deep at most: more fuel changes nothing,
    so the method is total. *)
Lemma _request_rec_fuel fuel verb path data json params ignoreUpdate st :
  _request_rec (S (S fuel)) verb path data json params ignoreUpdate st
  = _request verb path data json params ignoreUpdate st.
Proof.
  unfold _request. cbn [_request_rec].
  unfold mbind at 1 3. unfold Py_bind, bind.
  rewrite (refresh_gate_ext _ (perform "patch" "/userSessions" None None None));
    [|intros st'; apply _request_rec_bypassed].
  rewrite (refresh_gate_ext (_ ≫= _)
             (perform "patch" "/userSessions" None None None)); [done|].
  intros st'. apply (_request_rec_bypassed 0).
Qed.

Lemma _request_unfold verb path data json params ignoreUpdate st :
  _request verb path data json params ignoreUpdate st
  = (refresh_gate keep_alive ignoreUpdate;; perform verb path data json params) st.
Proof.
  unfold _request at 1. cbn [_request_rec].
  unfold mbind at 1 3. unfold Py_bind, bind.
  rewrite (refresh_gate_ext _ keep_alive); [done|].
  intros st'. unfold keep_alive. by rewrite <- (_request_rec_fuel 0).
Qed.

Lemma keep_alive_perform st :
  keep_alive st = perform "patch" "/userSessions" None None None st.
Proof. apply _request_rec_bypassed. Qed.

(** The second part sends exactly one request and classifies the
    answer. *)
Lemma perform_sends verb m path data json params st :
  session_method verb = Some m →
  perform verb path data json params st
  = (server (sent st) (request_of m path data json params st) ≫= classify,
     record_sent (request_of m path data json params st) st).
Proof.
  intros Hm. unfold perform, session_call. rewrite Hm.
  unfold mbind at 1. unfold Py_bind, bind, lift, request_of, record_sent.
  by destruct (server _ _).
Qed.

Lemma _request_passed verb m path data json params ignoreUpdate st st1 :
  refresh_gate keep_alive ignoreUpdate st = (Ok tt, st1) →
  session_method verb = Some m →
  _request verb path data json params ignoreUpdate st
  = (server (sent st1) (request_of m path data json params st1) ≫= classify,
     record_sent (request_of m path data json params st1) st1).
Proof.
  intros Hgate Hm. rewrite _request_unfold.
  rewrite (bind_Ok _ _ _ _ _ Hgate). by apply perform_sends.
Qed.
End RequestFacts.

(** ** Response classification *)

Section Classification.
Context `{Library} `{Environment}.

(** A status other than 200 and 204: the three error rules, in order. *)
Lemma classify_failure (req : Response.t) :
  Response.status_code req ≠ 200%Z →
  Response.status_code req ≠ 204%Z →
  classify req
  = Err (if str_contains "Invalid credentials" (Response.text req)
         then InvalidCredentials (Response.text req)
         else if (Response.status_code req =? 403)%Z
         then InvalidToken (TokenHeaders (Response.headers req))
         else NeosAPIException req None).
Proof.
  intros H200 H204. unfold classify.
  destruct (Z.eqb_spec (Response.status_code req) 200); [done|].
  destruct (Z.eqb_spec (Response.status_code req) 204); [done|].
  cbn. destruct (str_contains _ _); [done|].
  by destruct (_ =? 403)%Z.
Qed.

(** Status 200 with a JSON object: an object with a ["message"] key is
    an error carrying the value under that key, any other object is the
    result. *)
Lemma classify_200_object (req : Response.t) (d : gmap string pyval) :
  Response.status_code req = 200%Z →
  Response.json req = Some (PDict d) →
  classify req
  = match d !! "message" with
    | Some message => Err (NeosAPIException req (Some message))
    | None => Ok (PDict d)
    end.
Proof.
  intros Hstatus Hjson. unfold classify. rewrite Hstatus, Hjson. cbn.
  by destruct (d !! "message").
Qed.

(** Status 200 with a body that is not JSON: the text. *)
Lemma classify_200_text (req : Response.t) :
  Response.status_code req = 200%Z →
  Response.json req = None →
  classify req = Ok (PStr (Response.text req)).
Proof. intros Hstatus Hjson. unfold classify. by rewrite Hstatus, Hjson. Qed.

(** Status 204: [None]. *)
Lemma classify_204 (req : Response.t) :
  Response.status_code req = 204%Z → classify req = Ok PNone.
Proof. intros Hstatus. unfold classify. by rewrite Hstatus. Qed.

(** Status 200 with a JSON array: the array, unless one of its elements
    is the string ["message"]. *)
Lemma classify_200_array (req : Response.t) (l : list pyval) :
  Response.status_code req = 200%Z →
  Response.json req = Some (PList l) →
  PStr "message" ∉ l →
  classify req = Ok (PList l).
Proof.
  intros Hstatus Hjson Hl. unfold classify. rewrite Hstatus, Hjson. cbn.
  destruct (existsb _ l) eqn:Hex; [|done].
  apply existsb_exists in Hex as (x & Hx & Heq).
  destruct x as [| | | |s| |]; try discriminate.
  apply String.eqb_eq in Heq as ->.
  by apply list_elem_of_In in Hx.
Qed.

(** C2.  When [_request] gets past the token refresh and the response
    to its request has a status other than 200 and 204 (every status
    outside 2xx is one), it raises: [InvalidCredentials] with the body
    text if the body contains "Invalid credentials", whatever the
    status; otherwise [InvalidToken] with the response headers if the
    status is 403; otherwise [NeosAPIException] with the response. *)
Theorem _request_error_precedence
    (st st1 : State) (verb : string) (m : http_method) (path : string)
    (data json params : option pyval) (ignoreUpdate : bool) (req : Response.t) :
  refresh_gate keep_alive ignoreUpdate st = (Ok tt, st1) →
  session_method verb = Some m →
  server (sent st1) (request_of m path data json params st1) = Ok req →
  Response.status_code req ≠ 200%Z →
  Response.status_code req ≠ 204%Z →
  _request verb path data json params ignoreUpdate st
  = (Err (if str_contains "Invalid credentials" (Response.text req)
          then InvalidCredentials (Response.text req)
          else if (Response.status_code req =? 403)%Z
          then InvalidToken (TokenHeaders (Response.headers req))
          else NeosAPIException req None),
     record_sent (request_of m path data json params st1) st1).
Proof.
  intros Hgate Hm Hresp H200 H204.
  rewrite (_request_passed _ _ _ _ _ _ _ _ _ Hgate Hm), Hresp.
  cbn. by rewrite classify_failure.
Qed.
End Classification.

(** A 401 whose body has the marker is [InvalidCredentials], though the
    status is not 403. *)
Lemma _request_error_precedence_witness :
  fst (@_request Sample.library
         (Sample.env_always
            (Sample.response 401 "Invalid credentials supplied" None))
         "post" "/userSessions" None None None false Sample.state_out)
  = Err (InvalidCredentials "Invalid credentials supplied").
Proof.
  rewrite (@_request_error_precedence Sample.library
             (Sample.env_always
                (Sample.response 401 "Invalid credentials supplied" None))
             Sample.state_out Sample.state_out "post" POST "/userSessions"
             None None None false
             (Sample.response 401 "Invalid credentials supplied" None)).
  - reflexivity.
  - reflexivity.
  - reflexivity.
  - reflexivity.
  - vm_compute. discriminate.
  - vm_compute. discriminate.
Defined.

(** A 403 without the marker is [InvalidToken] with the headers, a 403
    with it is [InvalidCredentials], a 500 is the generic error. *)
Example classify_403 :
  classify (Sample.response 403 "Forbidden" None)
  = Err (InvalidToken (TokenHeaders ∅)).
Proof. reflexivity. Qed.

Example classify_403_marker :
  classify (Sample.response 403 "Invalid credentials" None)
  = Err (InvalidCredentials "Invalid credentials").
Proof. reflexivity. Qed.

Example classify_500 :
  classify (Sample.response 500 "oops" None)
  = Err (NeosAPIException (Sample.response 500 "oops" None) None).
Proof. reflexivity. Qed.

(** The 200 response of the specification's example. *)
Example classify_200_bad_thing :
  classify (Sample.response 200 "{message: bad thing}"
              (Some (PDict {[ "message" := PStr "bad thing" ]})))
  = Err (NeosAPIException
           (Sample.response 200 "{message: bad thing}"
              (Some (PDict {[ "message" := PStr "bad thing" ]})))
           (Some (PStr "bad thing"))).
Proof. reflexivity. Qed.

(** C3.  A 200 response whose body is JSON but neither an object nor an
    array is not returned: the test for a ["message"] member raises
    [TypeError] on a number, a boolean or [null], and the subscript
    raises it on a string that contains the word.  So does an array that
    has the string ["message"] as an element. *)
Theorem _request_200_json_scalar :
  fst (@_request Sample.library
         (Sample.env_always (Sample.response 200 "5" (Some (PInt 5))))
         "get" "/users/U-abc" None None None false Sample.state_out)
  = Err TypeError
  ∧ classify (Sample.response 200 "null" (Some PNone)) = Err TypeError
  ∧ classify (Sample.response 200 "true" (Some (PBool true))) = Err TypeError
  ∧ classify (Sample.response 200 "one message" (Some (PStr "one message")))
    = Err TypeError
  ∧ classify (Sample.response 200 "[message]" (Some (PList [PStr "message"])))
    = Err TypeError.
Proof. repeat split; reflexivity. Qed.

(** ** Token refresh *)

Section TokenRefresh.
Context `{Library} `{Environment}.

Lemma refresh_gate_within st lu :
  Client.lastUpdate (self st) = Some lu →
  (clock (ticks st) - lu ≤ renewal_window)%Z →
  refresh_gate keep_alive false st
  = match server (sent st) (keep_alive_request st) ≫= classify with
    | Ok _ => (Ok tt, refreshed st)
    | Err e => (Err e, record_sent (keep_alive_request st) (tick st))
    end.
Proof.
  intros Hlu Hwithin.
  unfold refresh_gate, mbind at 1, Py_bind, bind at 1, get_self.
  rewrite Hlu. cbn [negb]. unfold mbind at 1, Py_bind, bind at 1, now at 1.
  destruct (Z.leb_spec (clock (ticks st) - lu) renewal_window); [|lia].
  unfold mbind at 1, Py_bind, bind at 1.
  rewrite keep_alive_perform, (perform_sends _ PATCH) by done.
  change (request_of PATCH "/userSessions" None None None _)
    with (keep_alive_request st).
  change (sent (mkState _ _ _ _ (sent st))) with (sent st).
  by destruct (server (sent st) (keep_alive_request st) ≫= classify).
Qed.

Lemma refresh_gate_beyond st lu :
  Client.lastUpdate (self st) = Some lu →
  (renewal_window < clock (ticks st) - lu)%Z →
  refresh_gate keep_alive false st
  = (Err (InvalidToken (TokenMessage "Token expired")), tick st).
Proof.
  intros Hlu Hbeyond.
  unfold refresh_gate, mbind at 1, Py_bind, bind at 1, get_self.
  rewrite Hlu. cbn [negb]. unfold mbind at 1, Py_bind, bind at 1, now at 1.
  by destruct (Z.leb_spec (clock (ticks st) - lu) renewal_window); [lia|].
Qed.

(** C4, amended.  With [lastUpdate] set and the refresh not bypassed:
    when the time elapsed since [lastUpdate] is at most 3600000
    seconds, [_request] first sends one PATCH to /userSessions, itself
    not subject to the refresh; if that call returns, [lastUpdate]
    becomes the time read after it and the original request follows,
    its response deciding the result; if that call raises, the
    exception is the result, [lastUpdate] stays and nothing else is
    sent.  When more time has elapsed, [InvalidToken] is raised and
    nothing is sent. *)
Theorem _request_refresh
    (st : State) (lu : datetime) (verb : string) (m : http_method)
    (path : string) (data json params : option pyval) :
  Client.lastUpdate (self st) = Some lu →
  session_method verb = Some m →
  ((clock (ticks st) - lu ≤ renewal_window)%Z →
   match server (sent st) (keep_alive_request st) ≫= classify with
   | Ok _ =>
       let req := request_of m path data json params (refreshed st) in
       _request verb path data json params false st
       = (server (sent st ++ [keep_alive_request st]) req ≫= classify,
          record_sent req (refreshed st))
       ∧ Client.lastUpdate (self (refreshed st)) = Some (clock (S (ticks st)))
       ∧ sent (record_sent req (refreshed st))
         = sent st ++ [keep_alive_request st; req]
   | Err e =>
       _request verb path data json params false st
       = (Err e, record_sent (keep_alive_request st) (tick st))
   end)
  ∧ ((renewal_window < clock (ticks st) - lu)%Z →
     _request verb path data json params false st
     = (Err (InvalidToken (TokenMessage "Token expired")), tick st)).
Proof.
  intros Hlu Hm. split.
  - intros Hwithin.
    pose proof (refresh_gate_within st lu Hlu Hwithin) as Hgate.
    destruct (server (sent st) (keep_alive_request st) ≫= classify) as [v|e].
    + split; [|split].
      * by rewrite (_request_passed _ _ _ _ _ _ _ _ _ Hgate Hm).
      * done.
      * cbn. by rewrite <- app_assoc.
    + by rewrite _request_unfold, (bind_Err _ _ _ _ _ Hgate).
  - intros Hbeyond.
    by rewrite _request_unfold,
      (bind_Err _ _ _ _ _ (refresh_gate_beyond st lu Hlu Hbeyond)).
Qed.

(** [_request] without [ignoreUpdate], from any state: the refresh, then
    the one request and the classification of its answer. *)
Lemma _request_after_refresh verb m path data json params st :
  session_method verb = Some m →
  _request verb path data json params false st
  = after_refresh st
      (λ st1, (server (sent st1) (request_of m path data json params st1)
                 ≫= classify,
               record_sent (request_of m path data json params st1) st1)).
Proof.
  intros Hm. unfold after_refresh.
  destruct (Client.lastUpdate (self st)) as [lu|] eqn:Hlu.
  - destruct (Z.leb_spec (clock (ticks st) - lu) renewal_window) as [Hle|Hlt].
    + pose proof (refresh_gate_within st lu Hlu Hle) as Hgate.
      destruct (server (sent st) (keep_alive_request st) ≫= classify) as [v|e].
      * by rewrite (_request_passed _ _ _ _ _ _ _ _ _ Hgate Hm).
      * by rewrite _request_unfold, (bind_Err _ _ _ _ _ Hgate).
    + by rewrite _request_unfold,
        (bind_Err _ _ _ _ _ (refresh_gate_beyond st lu Hlu Hlt)).
  - by rewrite (_request_passed _ _ _ _ _ _ _ _ _
                  (refresh_gate_no_lastUpdate _ _ _ Hlu) Hm).
Qed.

Lemma after_refresh_ext {A : Type} st (k k' : State → result A * State) :
  (∀ st1, session_headers st1 = session_headers st → k st1 = k' st1) →
  after_refresh st k = after_refresh st k'.
Proof.
  intros Hk. unfold after_refresh.
  destruct (Client.lastUpdate (self st)) as [lu|]; [|by apply Hk].
  destruct (clock (ticks st) - lu <=? renewal_window)%Z; [|done].
  destruct (server (sent st) (keep_alive_request st) ≫= classify); [|done].
  by apply Hk.
Qed.

End TokenRefresh.

Lemma _request_refresh_witness :
  fst (@_request Sample.library Sample.env_ok "get" "/users/U-abc"
         None None None false Sample.state_in)
  = Ok (PDict ∅)
  ∧ Client.lastUpdate
      (self (@refreshed Sample.library Sample.env_ok Sample.state_in))
    = Some (Sample.clock_2022 1)
  ∧ @_request Sample.library Sample.env_ok "get" "/users/U-abc"
      None None None false Sample.state_stale
    = (Err (InvalidToken (TokenMessage "Token expired")), tick Sample.state_stale).
Proof.
  destruct (@_request_refresh Sample.library Sample.env_ok Sample.state_in
              Sample.t2022 "get" GET "/users/U-abc" None None None
              eq_refl eq_refl) as [Hwithin _].
  destruct (@_request_refresh Sample.library Sample.env_ok Sample.state_stale
              (Sample.t2022 - 3600001 * 1000000)%Z "get" GET "/users/U-abc"
              None None None eq_refl eq_refl) as [_ Hbeyond].
  assert (Sample.clock_2022 0 - Sample.t2022 ≤ renewal_window)%Z as Hle
    by (vm_compute; discriminate).
  assert (renewal_window
          < Sample.clock_2022 0 - (Sample.t2022 - 3600001 * 1000000))%Z as Hlt
    by (vm_compute; reflexivity).
  specialize (Hwithin Hle). specialize (Hbeyond Hlt).
  change (@server Sample.env_ok (sent Sample.state_in)
            (@keep_alive_request Sample.library Sample.state_in) ≫= classify)
    with (Ok (PDict ∅) : result pyval) in Hwithin.
  destruct Hwithin as (Hreq & Hlu & _).
  split; [by rewrite Hreq|]. split; [exact Hlu | exact Hbeyond].
Defined.

(** C4, as stated, fails when the keep-alive is refused.  The client
    logged in an hour ago, so the elapsed time is within the window, and
    the server answers 403 to the PATCH: [_request] raises the
    [InvalidToken] of that response, [lastUpdate] is not advanced and the
    GET is never sent. *)
Lemma _request_keep_alive_refused :
  let st := Sample.state_in in
  let run := @_request Sample.library Sample.env_patch_403 "get" "/users/U-abc"
               None None None false st in
  Client.lastUpdate (self st) = Some Sample.t2022
  ∧ (Sample.clock_2022 (ticks st) - Sample.t2022 ≤ renewal_window)%Z
  ∧ fst run = Err (InvalidToken (TokenHeaders ∅))
  ∧ Client.lastUpdate (self (snd run)) = Some Sample.t2022
  ∧ Request.method <$> sent (snd run) = [PATCH]
  ∧ ¬ (Client.lastUpdate (self (snd run)) = Some (Sample.clock_2022 1)
       ∧ GET ∈ (Request.method <$> sent (snd run))).
Proof.
  cbv zeta. repeat split; try (vm_compute; first [reflexivity | discriminate]).
  intros [Hlu _]. vm_compute in Hlu. discriminate.
Qed.

(** ** Session life cycle *)

Section SessionFacts.
Context `{Library} `{Environment}.

(** The client after [clean_session]: [rememberMe] is the one field it
    leaves alone. *)
Lemma clean_session_eq st :
  clean_session st
  = let c := Client.mk None None None (Client.rememberMe (self st)) None None in
    match session_headers st !! "Authorization" with
    | None => (Err (KeyError "authorization"), with_self c st)
    | Some _ =>
        (Ok tt,
         mkState c (headers c ∪ delete "Authorization" (session_headers st))
           (authfile st) (ticks st) (sent st))
    end.
Proof.
  unfold clean_session, mbind, Py_bind, bind, set_self, get_self,
    get_session_headers, set_session_headers, raise. cbn.
  by destruct (session_headers st !! "Authorization").
Qed.

(** The headers of a client without credentials. *)
Lemma headers_cleared rememberMe :
  headers (Client.mk None None None rememberMe None None)
  = {[ "User-Agent" := "neosvrpy/" +:+ version ]}.
Proof. reflexivity. Qed.

Lemma logout_eq st :
  logout st
  = match perform "delete"
            ("/userSessions/" +:+ str_of_opt (Client.userId (self st)) +:+ "/"
               +:+ str_of_opt (Client.token (self st)))
            None None None st with
    | (Ok _, st1) => clean_session st1
    | (Err e, st1) => (Err e, st1)
    end.
Proof.
  unfold logout, mbind, Py_bind, bind, get_self. cbv beta iota.
  unfold _request. by rewrite _request_rec_bypassed.
Qed.

(** C5.  [logout] sends the DELETE for the session, not subject to the
    token refresh.  If that call raises, [logout] raises the same
    exception and neither the client's fields nor the session's headers
    have changed.  If it returns, [userId], [token], [expire],
    [secretMachineId] and [lastUpdate] are [None] afterwards and the
    session has no [Authorization] header (when it had none to begin
    with, the [del] raises [KeyError] after the fields are cleared). *)
Theorem logout_clears_after_ack (st : State) :
  let req :=
    request_of DELETE
      ("/userSessions/" +:+ str_of_opt (Client.userId (self st)) +:+ "/"
         +:+ str_of_opt (Client.token (self st)))
      None None None st in
  let st' := snd (logout st) in
  sent st' = sent st ++ [req]
  ∧ match server (sent st) req ≫= classify with
    | Err e =>
        fst (logout st) = Err e
        ∧ self st' = self st
        ∧ session_headers st' = session_headers st
    | Ok _ =>
        self st'
        = Client.mk None None None (Client.rememberMe (self st)) None None
        ∧ session_headers st' !! "Authorization" = None
        ∧ fst (logout st)
          = match session_headers st !! "Authorization" with
            | Some _ => Ok tt
            | None => Err (KeyError "authorization")
            end
    end.
Proof.
  intros req st'. subst st'.
  rewrite logout_eq, (perform_sends _ DELETE) by done. fold req.
  destruct (server (sent st) req ≫= classify) as [v|e]; [|done].
  rewrite clean_session_eq. cbn zeta.
  change (session_headers (record_sent req st)) with (session_headers st).
  destruct (session_headers st !! "Authorization") as [a|] eqn:Hauth; cbn.
  - repeat split; try done.
    by rewrite lookup_union, lookup_delete_eq, lookup_singleton_ne.
  - repeat split; done.
Qed.
End SessionFacts.

(** Logging out of a reachable server clears the client; with the server
    down the client stays logged in. *)
Example logout_acknowledged :
  let st' := snd (@logout Sample.library Sample.env_ok Sample.state_in) in
  self st' = Client_default
  ∧ session_headers st' = {[ "User-Agent" := "neosvrpy/1.0.0" ]}.
Proof. split; vm_compute; reflexivity. Qed.

Example logout_unreachable :
  let run := @logout Sample.library Sample.env_down Sample.state_in in
  fst run = Err (RequestException "connection refused")
  ∧ self (snd run) = Sample.client_in
  ∧ session_headers (snd run) = session_headers Sample.state_in.
Proof. repeat split; vm_compute; reflexivity. Qed.

(** ** The token file *)

Section TokenFile.
Context `{Library} `{Environment}.



(** Without an [expire] the file is left emptied. *)
Lemma saveToken_no_expire st :
  Client.expire (self st) = None →
  saveToken st
  = (Err AttributeError,
     mkState (self st) (session_headers st) NotJSON (ticks st) (sent st)).
Proof.
  intros He.
  unfold saveToken, mbind, Py_bind, bind, write_authfile, get_self. cbn.
  by rewrite He.
Qed.





End TokenFile.


(** ** [LoginDetails] *)

(** C7.  Constructing [LoginDetails] raises [NeosException] when
    [ownerId], [username] and [email] are all absent ([None], or empty),
    and when [password] is absent whatever the identity fields are; with
    an identity field and a password present it returns the instance with
    the fields as given.  Whatever instance it returns has an identity
    field and a password: no other instance reaches the caller. *)
Theorem LoginDetails_validation
    (ownerId username email password : option string)
    (secretMachineId : string) (rememberMe : pyval) :
  let new := LoginDetails_new ownerId username email password
               secretMachineId rememberMe in
  (str_truthy ownerId = false → str_truthy username = false →
   str_truthy email = false →
   new = Err (NeosException "Either an ownerId, an username or an email is needed"))
  ∧ (str_truthy password = false → ∃ msg, new = Err (NeosException msg))
  ∧ (str_truthy ownerId || str_truthy username || str_truthy email = true →
     str_truthy password = true →
     new = Ok (LoginDetails.mk ownerId username email password
                 secretMachineId rememberMe))
  ∧ (∀ x, new = Ok x →
       x = LoginDetails.mk ownerId username email password
             secretMachineId rememberMe
       ∧ str_truthy (LoginDetails.ownerId x) || str_truthy (LoginDetails.username x)
         || str_truthy (LoginDetails.email x) = true
       ∧ str_truthy (LoginDetails.password x) = true).
Proof.
  unfold LoginDetails_new, LoginDetails_post_init. cbn.
  destruct (str_truthy ownerId) eqn:Ho, (str_truthy username) eqn:Hu,
    (str_truthy email) eqn:He, (str_truthy password) eqn:Hp; cbn;
    repeat split; intros; try discriminate; eauto;
    match goal with
    | Hx : Ok _ = Ok _ |- _ =>
        injection Hx as <-; cbn; by rewrite ?Ho, ?Hu, ?He, ?Hp
    end.
Qed.

Lemma LoginDetails_validation_witness :
  LoginDetails_new None None None (Some "secret") "machine" (PBool false)
  = Err (NeosException "Either an ownerId, an username or an email is needed")
  ∧ (∃ msg, LoginDetails_new None (Some "alice") None None "machine" (PBool false)
            = Err (NeosException msg))
  ∧ LoginDetails_new None (Some "alice") None (Some "secret") "machine" (PBool false)
    = Ok (LoginDetails.mk None (Some "alice") None (Some "secret") "machine"
            (PBool false)).
Proof.
  split; [|split].
  - apply (LoginDetails_validation None None None (Some "secret") "machine"
             (PBool false)); reflexivity.
  - apply (LoginDetails_validation None (Some "alice") None None "machine"
             (PBool false)); reflexivity.
  - apply (LoginDetails_validation None (Some "alice") None (Some "secret")
             "machine" (PBool false)); reflexivity.
Defined.

(** The message when only the password is missing. *)
Example LoginDetails_no_password :
  LoginDetails_new (Some "U-abc") None None None "machine" (PBool false)
  = Err (NeosException "A password is needed").
Proof. reflexivity. Qed.

(** ** [getMessageLegacy] and [resolveLink] *)

Section Endpoints.
Context `{Library} `{Environment}.

(** C8.  With a non-empty [fromTime], [getMessageLegacy] raises the
    [ValueError] saying it is not implemented and leaves the state as it
    found it: nothing was sent.  Without one, the call issues a GET of
    the user's messages whose [params] hold [maxItems], [unreadOnly]
    and, when [user] is non-empty, [user], and nothing else: from every
    state the call is that request, classified, once the token refresh
    of [_request] has let it through.  So from a client without
    [lastUpdate] it is the one request sent, and from a client within
    the window it follows the keep-alive that returned. *)
Theorem getMessageLegacy_fromTime
    (st : State) (fromTime : option string) (maxItems : Z)
    (user : option string) (unreadOnly : bool) :
  (str_truthy fromTime = true →
   getMessageLegacy fromTime maxItems user unreadOnly st
   = (Err (ValueError (VEMessage "fromTime is not yet implemented")), st))
  ∧ (str_truthy fromTime = false →
     ∃ params : gmap string pyval,
       let req (headers : gmap string string) :=
         Request.mk GET
           (CLOUDX_NEOS_API +:+ "/users/"
              +:+ str_of_opt (Client.userId (self st)) +:+ "/messages")
           None None (Some (PDict params)) headers in
       params !! "maxItems" = Some (PInt maxItems)
       ∧ params !! "unreadOnly" = Some (PBool unreadOnly)
       ∧ params !! "user" = (if str_truthy user then PStr <$> user else None)
       ∧ (∀ k, k ≠ "maxItems" → k ≠ "unreadOnly" → k ≠ "user" →
               params !! k = None)
       ∧ getMessageLegacy fromTime maxItems user unreadOnly st
         = after_refresh st
             (λ st1, (server (sent st1) (req (session_headers st1)) ≫= classify,
                      record_sent (req (session_headers st1)) st1))
       ∧ (Client.lastUpdate (self st) = None →
          sent (snd (getMessageLegacy fromTime maxItems user unreadOnly st))
          = sent st ++ [req (session_headers st)])
       ∧ (∀ lu v,
            Client.lastUpdate (self st) = Some lu →
            (clock (ticks st) - lu ≤ renewal_window)%Z →
            server (sent st) (keep_alive_request st) ≫= classify = Ok v →
            sent (snd (getMessageLegacy fromTime maxItems user unreadOnly st))
            = sent st ++ [keep_alive_request st; req (session_headers st)])).
Proof.
  split; [intros Hfrom; unfold getMessageLegacy; by rewrite Hfrom|].
  intros Hfrom.
  set (base := <[ "unreadOnly" := PBool unreadOnly ]>
                 (<[ "maxItems" := PInt maxItems ]> ∅) : gmap string pyval).
  set (params := match user with
                 | Some u => if str_truthy user then <[ "user" := PStr u ]> base
                             else base
                 | None => base
                 end).
  exists params. intros req.
  assert (params !! "maxItems" = Some (PInt maxItems)) as Hmax.
  { subst params base.
    destruct user as [u|]; [destruct (str_truthy (Some u))|]; by simplify_map_eq. }
  assert (getMessageLegacy fromTime maxItems user unreadOnly st
          = after_refresh st
              (λ st1, (server (sent st1) (req (session_headers st1)) ≫= classify,
                       record_sent (req (session_headers st1)) st1))) as Hrun.
  { unfold getMessageLegacy. rewrite Hfrom.
    transitivity
      (_request "get"
         ("/users/" +:+ str_of_opt (Client.userId (self st)) +:+ "/messages")
         None None (Some (PDict params)) false st); [reflexivity|].
    rewrite (_request_after_refresh "get" GET _ _ _ _ _ eq_refl).
    apply after_refresh_ext. intros st1 _.
    assert (if_truthy (Some (PDict params)) = Some (PDict params)) as Htruthy.
    { unfold if_truthy. cbn. rewrite bool_decide_eq_false_2; [done|].
      intros Hempty. by rewrite Hempty, lookup_empty in Hmax. }
    unfold request_of. by rewrite Htruthy. }
  split; [exact Hmax|]. split; [|split; [|split; [|split; [exact Hrun|split]]]].
  - subst params base.
    destruct user as [u|]; [destruct (str_truthy (Some u))|]; by simplify_map_eq.
  - subst params base.
    destruct user as [u|]; [destruct (str_truthy (Some u))|]; by simplify_map_eq.
  - intros k Hk1 Hk2 Hk3. subst params base.
    destruct user as [u|]; [destruct (str_truthy (Some u))|]; by simplify_map_eq.
  - intros Hlu. rewrite Hrun. unfold after_refresh. by rewrite Hlu.
  - intros lu v Hlu Hle Hka. rewrite Hrun. unfold after_refresh.
    rewrite Hlu, Hka.
    destruct (Z.leb_spec (clock (ticks st) - lu) renewal_window); [|lia].
    cbn. by rewrite <- app_assoc.
Qed.

Lemma str_split_no_sep (sep : Ascii.ascii) (s : string) :
  str_has_char sep s = false → str_split sep s = [s].
Proof.
  induction s as [|c s IH]; [done|]. cbn [str_split str_has_char].
  destruct (Ascii.eqb c sep); [done|]. cbn [orb].
  intros Hs. by rewrite (IH Hs).
Qed.

Lemma str_split_app (sep : Ascii.ascii) (u rest : string) :
  str_has_char sep u = false →
  str_split sep (u +:+ String sep rest) = u :: str_split sep rest.
Proof.
  induction u as [|c u IH].
  - intros _. change ("" +:+ String sep rest) with (String sep rest).
    cbn [str_split]. by rewrite Ascii.eqb_refl.
  - change (String c u +:+ String sep rest)
      with (String c (u +:+ String sep rest)).
    cbn [str_split str_has_char].
    destruct (Ascii.eqb c sep); [done|]. cbn [orb].
    intros Hu. by rewrite (IH Hu).
Qed.

(** The three parts of a path with one owner and one record. *)
Lemma str_split_owner_record (user record : string) :
  str_has_char "/" user = false →
  str_has_char "/" record = false →
  str_split "/" ("/" +:+ user +:+ "/" +:+ record) = [""; user; record].
Proof.
  intros Hu Hr.
  change ("/" +:+ user +:+ "/" +:+ record)
    with (String "/" (user +:+ String "/" record)).
  cbn [str_split]. rewrite Ascii.eqb_refl.
  by rewrite (str_split_app _ _ _ Hu), (str_split_no_sep _ _ Hr).
Qed.

Lemma from_dict_NeosDirectory_encodes d dir :
  encodes_NeosRecord d (NeosDirectory.base dir) →
  encodes_own_fields d (IDirectory dir) →
  from_dict_NeosDirectory (PDict d) = Ok dir.
Proof.
  intros Hbase (Hm & Hn & Ht & Hc). destruct dir. cbn in *.
  unfold from_dict_NeosDirectory. cbn.
  rewrite (fields_NeosRecord_encodes _ _ Hbase). cbn.
  rewrite (field_opt_str_value _ _ _ Hm). unfold field_str. rewrite Hn.
  by rewrite (field_list_str_value _ _ _ Ht), (field_opt_datetime_value _ _ _ Hc).
Qed.

(** C9.  For a link whose path is a slash, an owner, a slash and a
    record (neither containing a slash), [resolveLink] issues a GET of
    /users/owner/records/record and decodes the answer as a
    [NeosDirectory]: from every state the call is that request,
    classified and decoded, once the token refresh of [_request] has let
    it through.  From a client without [lastUpdate] the GET is the one
    request sent; from a client within the window it follows the
    keep-alive that returned.  In both cases, when the answer is status
    200 with a JSON object without a ["message"] key that holds the
    fields of a directory, that directory is returned.  The path
    "/U-abc/R-def" is the case of owner U-abc and record R-def. *)
Theorem resolveLink_lookup
    (st : State) (link : NeosLink.t) (user record : string) :
  str_has_char "/" user = false →
  str_has_char "/" record = false →
  ParseResult.path (NeosLink.assetUri link) = "/" +:+ user +:+ "/" +:+ record →
  let req :=
    Request.mk GET
      (CLOUDX_NEOS_API +:+ "/users/" +:+ user +:+ "/records/" +:+ record)
      None None None (session_headers st) in
  let answer_encodes (resp : Response.t) (dir : NeosDirectory.t) :=
    ∃ d, Response.status_code resp = 200%Z
         ∧ Response.json resp = Some (PDict d)
         ∧ d !! "message" = None
         ∧ encodes_NeosRecord d (NeosDirectory.base dir)
         ∧ encodes_own_fields d (IDirectory dir) in
  resolveLink link st
  = after_refresh st
      (λ st1, ((server (sent st1) req ≫= classify) ≫= from_dict_NeosDirectory,
               record_sent req st1))
  ∧ (Client.lastUpdate (self st) = None →
     sent (snd (resolveLink link st)) = sent st ++ [req]
     ∧ ∀ resp dir,
         server (sent st) req = Ok resp → answer_encodes resp dir →
         fst (resolveLink link st) = Ok dir)
  ∧ (∀ lu v,
       Client.lastUpdate (self st) = Some lu →
       (clock (ticks st) - lu ≤ renewal_window)%Z →
       server (sent st) (keep_alive_request st) ≫= classify = Ok v →
       sent (snd (resolveLink link st)) = sent st ++ [keep_alive_request st; req]
       ∧ ∀ resp dir,
           server (sent st ++ [keep_alive_request st]) req = Ok resp →
           answer_encodes resp dir →
           fst (resolveLink link st) = Ok dir).
Proof.
  intros Hu Hr Hpath req answer_encodes.
  assert (∀ sent1 resp dir,
            server sent1 req = Ok resp → answer_encodes resp dir →
            (server sent1 req ≫= classify) ≫= from_dict_NeosDirectory = Ok dir)
    as Hdecode.
  { intros sent1 resp dir Hresp (d & Hstatus & Hjson & Hmsg & Hbase & Hown).
    rewrite Hresp. cbn [mbind result_bind rbind].
    rewrite (classify_200_object _ _ Hstatus Hjson), Hmsg. cbn [rbind].
    apply (from_dict_NeosDirectory_encodes _ _ Hbase Hown). }
  assert (resolveLink link st
          = after_refresh st
              (λ st1, ((server (sent st1) req ≫= classify)
                         ≫= from_dict_NeosDirectory,
                       record_sent req st1))) as Hrun.
  { unfold resolveLink. rewrite Hpath, (str_split_owner_record _ _ Hu Hr).
    unfold mbind at 1, Py_bind, bind.
    rewrite (_request_after_refresh "get" GET _ _ _ _ _ eq_refl).
    unfold after_refresh.
    destruct (Client.lastUpdate (self st)) as [lu|].
    - destruct (clock (ticks st) - lu <=? renewal_window)%Z; [|done].
      destruct (server (sent st) (keep_alive_request st) ≫= classify); [|done].
      unfold lift, request_of. cbn.
      by destruct (server _ _ ≫= classify).
    - unfold lift, request_of. cbn.
      by destruct (server _ _ ≫= classify). }
  split; [exact Hrun|]. split.
  - intros Hlu. rewrite Hrun. unfold after_refresh. rewrite Hlu.
    split; [done|]. intros resp dir Hresp Hanswer.
    apply (Hdecode _ _ _ Hresp Hanswer).
  - intros lu v Hlu Hle Hka. rewrite Hrun. unfold after_refresh.
    rewrite Hlu, Hka.
    destruct (Z.leb_spec (clock (ticks st) - lu) renewal_window); [|lia].
    split; [cbn; by rewrite <- app_assoc|].
    intros resp dir Hresp Hanswer.
    apply (Hdecode _ _ _ Hresp Hanswer).
Qed.
End Endpoints.

Lemma getMessageLegacy_fromTime_witness :
  @getMessageLegacy Sample.library Sample.env_ok (Some "2022-01-01") 100 None false
    Sample.state_in
  = (Err (ValueError (VEMessage "fromTime is not yet implemented")), Sample.state_in)
  ∧ ∃ params : gmap string pyval,
      sent (snd (@getMessageLegacy Sample.library Sample.env_ok None 100
                   (Some "U-xyz") true Sample.state_out))
      = [Request.mk GET "https://api.example.com/api/users/None/messages"
           None None (Some (PDict params)) {[ "User-Agent" := "python-requests" ]}]
      ∧ params !! "maxItems" = Some (PInt 100)
      ∧ params !! "unreadOnly" = Some (PBool true)
      ∧ params !! "user" = Some (PStr "U-xyz").
Proof.
  split.
  - apply (@getMessageLegacy_fromTime Sample.library Sample.env_ok Sample.state_in
             (Some "2022-01-01") 100 None false). reflexivity.
  - destruct (@getMessageLegacy_fromTime Sample.library Sample.env_ok
                Sample.state_out None 100 (Some "U-xyz") true) as [_ Hissue].
    destruct (Hissue eq_refl)
      as (params & Hmax & Hunread & Huser & _ & _ & Hsent & _).
    exists params. split; [exact (Hsent eq_refl)|].
    repeat split; assumption.
Defined.

Lemma resolveLink_lookup_witness :
  Request.url <$> sent (snd (@resolveLink Sample.library
                               (Scenario.env_json (Scenario.directory_fields "directory"))
                               Sample.link_instance Sample.state_out))
  = ["https://api.example.com/api/users/U-abc/records/R-def"]
  ∧ Request.method <$> sent (snd (@resolveLink Sample.library
                                    (Scenario.env_json
                                       (Scenario.directory_fields "directory"))
                                    Sample.link_instance Sample.state_out))
    = [GET]
  ∧ fst (@resolveLink Sample.library
           (Scenario.env_json (Scenario.directory_fields "directory"))
           Sample.link_instance Sample.state_out)
    = Ok Sample.directory_instance.
Proof.
  destruct (@resolveLink_lookup Sample.library
              (Scenario.env_json (Scenario.directory_fields "directory"))
              Sample.state_out Sample.link_instance "U-abc" "R-def"
              eq_refl eq_refl eq_refl) as (_ & Hnone & _).
  destruct (Hnone eq_refl) as [Hsent Hdir].
  rewrite Hsent. split; [reflexivity|]. split; [reflexivity|].
  apply (Hdir (Sample.response 200 "{...}"
                 (Some (PDict (Scenario.directory_fields "directory"))))).
  - reflexivity.
  - exists (Scenario.directory_fields "directory").
    split; [reflexivity|]. split; [reflexivity|]. split; [reflexivity|].
    split; sample_payload.
Defined.

(** ** The [headers] property *)

Section Headers.
Context `{Library} `{Environment}.

(** Neither part of [_request] reads [userId] or [token]: with other
    credentials in the client it returns the same result, sends the
    same requests and leaves the same state, credentials apart. *)
Lemma perform_credentials u t verb path data json params st :
  perform verb path data json params (with_credentials u t st)
  = let '(r, st') := perform verb path data json params st in
    (r, with_credentials u t st').
Proof.
  unfold perform, session_call, mbind, Py_bind, bind, lift, raise.
  destruct (session_method verb); [|done]. cbn.
  by destruct (server _ _).
Qed.

Lemma refresh_gate_credentials u t ka ignoreUpdate st :
  (∀ st0, ka (with_credentials u t st0)
          = let '(r, st') := ka st0 in (r, with_credentials u t st')) →
  refresh_gate ka ignoreUpdate (with_credentials u t st)
  = let '(r, st') := refresh_gate ka ignoreUpdate st in
    (r, with_credentials u t st').
Proof.
  intros Hka.
  unfold refresh_gate, mbind, Py_bind, bind, get_self, now, set_self, raise, ret.
  cbn. destruct (Client.lastUpdate (self st)) as [lu|]; [|done].
  destruct ignoreUpdate; cbn; [done|].
  destruct (clock (ticks st) - lu <=? renewal_window)%Z; [|done].
  change (mkState (with_token t (with_userId u (self st))) (session_headers st)
            (authfile st) (S (ticks st)) (sent st))
    with (with_credentials u t (tick st)).
  rewrite Hka.
  change (mkState (self st) (session_headers st) (authfile st) (S (ticks st))
            (sent st))
    with (tick st).
  by destruct (ka (tick st)) as [[v|e] st'].
Qed.

Lemma _request_credentials u t verb path data json params ignoreUpdate st :
  _request verb path data json params ignoreUpdate (with_credentials u t st)
  = let '(r, st') := _request verb path data json params ignoreUpdate st in
    (r, with_credentials u t st').
Proof.
  rewrite !_request_unfold. unfold mbind, Py_bind, bind.
  rewrite refresh_gate_credentials.
  - destruct (refresh_gate keep_alive ignoreUpdate st) as [[[]|e] st']; [|done].
    apply perform_credentials.
  - intros st0. rewrite !keep_alive_perform. apply perform_credentials.
Qed.

(** C10, amended.  When [userId] or [token] is unset ([None], or
    empty), the [headers] property is the [User-Agent] entry alone; it
    has an [Authorization] entry exactly when both are set, and the entry
    is then "neos userId:token".  [_request] reads neither field nor the
    property: it behaves the same whatever the two fields hold, its
    request carries the headers the session has, and it is subject to
    the token refresh like any other call.  From a client with no
    [lastUpdate] (as before login and after clearing) the request is
    sent and its response decides the result. *)
Theorem headers_authorization (st : State) :
  let c := self st in
  (str_truthy (Client.userId c) = false ∨ str_truthy (Client.token c) = false →
   headers c = {[ "User-Agent" := "neosvrpy/" +:+ version ]})
  ∧ (is_Some (headers c !! "Authorization")
     ↔ str_truthy (Client.userId c) = true ∧ str_truthy (Client.token c) = true)
  ∧ (∀ u t,
       Client.userId c = Some u → Client.token c = Some t →
       u ≠ "" → t ≠ "" →
       headers c
       = <[ "Authorization" := "neos " +:+ u +:+ ":" +:+ t ]>
           {[ "User-Agent" := "neosvrpy/" +:+ version ]})
  ∧ (∀ u t verb path data json params ignoreUpdate,
       _request verb path data json params ignoreUpdate (with_credentials u t st)
       = let '(r, st') := _request verb path data json params ignoreUpdate st in
         (r, with_credentials u t st'))
  ∧ (∀ verb m path data json params,
       session_method verb = Some m →
       let req :=
         Request.mk m (CLOUDX_NEOS_API +:+ path)
           (if_truthy data) (if_truthy json) (if_truthy params)
           (session_headers st) in
       _request verb path data json params false st
       = after_refresh st
           (λ st1, (server (sent st1) req ≫= classify, record_sent req st1)))
  ∧ (∀ verb m path data json params ignoreUpdate,
       session_method verb = Some m →
       Client.lastUpdate c = None →
       let req :=
         Request.mk m (CLOUDX_NEOS_API +:+ path)
           (if_truthy data) (if_truthy json) (if_truthy params)
           (session_headers st) in
       _request verb path data json params ignoreUpdate st
       = (server (sent st) req ≫= classify, record_sent req st)).
Proof.
  intros c. split; [|split; [|split; [|split; [|split]]]].
  - unfold headers. intros [-> | ->]; [done|]. by rewrite orb_true_r.
  - unfold headers.
    destruct (str_truthy (Client.userId c)), (str_truthy (Client.token c)); cbn.
    + rewrite lookup_insert_eq. by split.
    + rewrite lookup_singleton_ne by done. split; [by intros [? ?] | by intros [? ?]].
    + rewrite lookup_singleton_ne by done. split; [by intros [? ?] | by intros [? ?]].
    + rewrite lookup_singleton_ne by done. split; [by intros [? ?] | by intros [? ?]].
  - intros u t Hu Ht Hu' Ht'. unfold headers. rewrite Hu, Ht. cbn.
    by destruct (String.eqb_spec u ""), (String.eqb_spec t "").
  - intros. apply _request_credentials.
  - intros verb m path data json params Hm req.
    rewrite (_request_after_refresh _ _ _ _ _ _ _ Hm).
    apply after_refresh_ext. intros st1 Hh.
    unfold request_of. rewrite Hh. by fold req.
  - intros verb m path data json params ignoreUpdate Hm Hlu req.
    by apply _request_passed; [apply refresh_gate_no_lastUpdate|].
Qed.
End Headers.

Lemma headers_authorization_witness :
  @headers Sample.library Client_default = {[ "User-Agent" := "neosvrpy/1.0.0" ]}
  ∧ @headers Sample.library Sample.client_in
    = <[ "Authorization" := "neos U-abc:tok" ]>
        {[ "User-Agent" := "neosvrpy/1.0.0" ]}
  ∧ @_request Sample.library Sample.env_ok "get" "/users/U-abc" None None None
      false Sample.state_out
    = (Ok (PDict ∅),
       record_sent
         (Request.mk GET "https://api.example.com/api/users/U-abc" None None None
            {[ "User-Agent" := "python-requests" ]})
         Sample.state_out).
Proof.
  destruct (@headers_authorization Sample.library Sample.env_ok Sample.state_out)
    as (Hunset & _ & _ & _ & _ & Hsent).
  destruct (@headers_authorization Sample.library Sample.env_ok Sample.state_in)
    as (_ & _ & Hset & _ & _ & _).
  split; [|split].
  - apply Hunset. left. reflexivity.
  - apply (Hset "U-abc" "tok"); first [reflexivity | discriminate].
  - apply (Hsent "get" GET "/users/U-abc" None None None false); reflexivity.
Defined.

(** C10, as stated, fails on two clients whose [token] is unset.  The
    first has a [lastUpdate] older than the window: its request fails
    locally with [InvalidToken], and nothing is sent.  The second has no
    [lastUpdate] and a session that still holds the [Authorization] of
    the last login: the [headers] property has none, yet the request
    goes out with the session's, so it is not unauthenticated. *)
Lemma _request_token_unset :
  let stale := with_credentials (Some "U-abc") None Sample.state_stale in
  let fresh :=
    with_self (with_lastUpdate None (with_token None Sample.client_in))
      Sample.state_in in
  let run st := @_request Sample.library Sample.env_ok "get" "/users/U-abc"
                  None None None false st in
  Client.token (self stale) = None
  ∧ @headers Sample.library (self stale) = {[ "User-Agent" := "neosvrpy/1.0.0" ]}
  ∧ fst (run stale) = Err (InvalidToken (TokenMessage "Token expired"))
  ∧ sent (snd (run stale)) = []
  ∧ Client.token (self fresh) = None
  ∧ @headers Sample.library (self fresh) = {[ "User-Agent" := "neosvrpy/1.0.0" ]}
  ∧ fst (run fresh) = Ok (PDict ∅)
  ∧ (λ r, Request.headers r !! "Authorization") <$> sent (snd (run fresh))
    = [Some "neos U-abc:tok"].
Proof. cbv zeta. repeat split; vm_compute; reflexivity. Qed.

(** ** Python string operations on concrete inputs *)

Example str_split_link_path :
  str_split "/" "/U-abc/R-def" = [""; "U-abc"; "R-def"].
Proof. reflexivity. Qed.

Example str_split_empty : str_split "/" "" = [""].
Proof. reflexivity. Qed.

Example str_split_adjacent : str_split "/" "a//b/" = ["a"; ""; "b"; ""].
Proof. reflexivity. Qed.

Example str_contains_marker :
  str_contains "Invalid credentials" "401: Invalid credentials." = true
  ∧ str_contains "Invalid credentials" "invalid credentials" = false.
Proof. split; reflexivity. Qed.

(** A link whose path has a folder level more cannot be unpacked into
    three names: [resolveLink] raises before any request. *)
Example resolveLink_four_parts :
  @resolveLink Sample.library Sample.env_ok
    (NeosLink.mk (Sample.base_record "R-1" "Shared" LINK)
       (ParseResult.mk "neosrec" "" "/U-abc/Inventory/R-def" "" "" ""))
    Sample.state_out
  = (Err (ValueError (VEUnpack 3 4)), Sample.state_out).
Proof. reflexivity. Qed.

(** * Further properties *)

(** ** What [_request] leaves alone *)

Section RequestFrame.
Context `{Library} `{Environment}.

Lemma perform_frame verb path data json params st :
  ∃ new,
    snd (perform verb path data json params st)
    = mkState (self st) (session_headers st) (authfile st) (ticks st)
        (sent st ++ new)
    ∧ (List.length new ≤ 1)%nat
    ∧ Forall (λ r, Request.headers r = session_headers st) new.
Proof.
  destruct (session_method verb) as [m|] eqn:Hm.
  - rewrite (perform_sends _ m) by done.
    eexists [_]. repeat split; [cbn; lia|]. by constructor.
  - exists []. unfold perform, session_call. rewrite Hm.
    unfold mbind, Py_bind, bind, raise. cbn. rewrite app_nil_r.
    destruct st. repeat split; [lia | constructor].
Qed.

Lemma refresh_gate_frame ignoreUpdate st :
  ∃ c' k new,
    snd (refresh_gate keep_alive ignoreUpdate st)
    = mkState c' (session_headers st) (authfile st) k (sent st ++ new)
    ∧ same_credentials (self st) c'
    ∧ (Client.lastUpdate c' = Client.lastUpdate (self st)
       ∨ ∃ n, Client.lastUpdate c' = Some (clock n))
    ∧ (List.length new ≤ 1)%nat
    ∧ Forall (λ r, Request.headers r = session_headers st) new.
Proof.
  destruct (Client.lastUpdate (self st)) as [lu|] eqn:Hlu.
  - destruct ignoreUpdate.
    + rewrite refresh_gate_bypassed. exists (self st), (ticks st), [].
      rewrite app_nil_r. destruct st. cbn in *.
      repeat split; auto; lia.
    + destruct (Z.le_gt_cases (clock (ticks st) - lu) renewal_window) as [Hle|Hgt].
      * rewrite (refresh_gate_within st lu Hlu Hle).
        destruct (server (sent st) (keep_alive_request st) ≫= classify).
        -- eexists _, _, [keep_alive_request st]. split; [reflexivity|].
           repeat split; eauto; try (by constructor); cbn; lia.
        -- exists (self st), (S (ticks st)), [keep_alive_request st].
           split; [reflexivity|]. rewrite Hlu.
           repeat split; eauto; try (by constructor); cbn; lia.
      * rewrite (refresh_gate_beyond st lu Hlu); [|lia].
        exists (self st), (S (ticks st)), []. rewrite app_nil_r, Hlu.
        repeat split; auto; cbn; lia.
  - rewrite (refresh_gate_no_lastUpdate _ _ _ Hlu).
    exists (self st), (ticks st), []. rewrite app_nil_r. destruct st. cbn in *.
    repeat split; auto; lia.
Qed.

(** X1.  Whatever its arguments and whatever the server answers,
    [_request] leaves [userId], [token], [expire], [rememberMe] and
    [secretMachineId] as they were, does not touch the session's headers
    or the token file, keeps the requests sent before and adds at most
    two, each carrying the session's headers; [lastUpdate] is as before
    or a reading of the clock. *)
Theorem _request_frame
    (st : State) (verb path : string) (data json params : option pyval)
    (ignoreUpdate : bool) :
  let st' := snd (_request verb path data json params ignoreUpdate st) in
  same_credentials (self st) (self st')
  ∧ session_headers st' = session_headers st
  ∧ authfile st' = authfile st
  ∧ (Client.lastUpdate (self st') = Client.lastUpdate (self st)
     ∨ ∃ n, Client.lastUpdate (self st') = Some (clock n))
  ∧ ∃ new,
      sent st' = sent st ++ new
      ∧ (List.length new ≤ 2)%nat
      ∧ Forall (λ r, Request.headers r = session_headers st) new.
Proof.
  cbv zeta. rewrite _request_unfold. unfold mbind, Py_bind, bind.
  destruct (refresh_gate_frame ignoreUpdate st)
    as (c' & k & new & Hst & Hcred & Hlu & Hlen & Hhdr).
  destruct (refresh_gate keep_alive ignoreUpdate st) as [[[]|e] st1];
    cbn in Hst; subst st1.
  - destruct (perform_frame verb path data json params
                (mkState c' (session_headers st) (authfile st) k (sent st ++ new)))
      as (new' & Hst' & Hlen' & Hhdr').
    rewrite Hst'. cbn in *.
    do 4 (split; [done|]).
    exists (new ++ new'). rewrite app_assoc, length_app.
    split; [done|]. split; [lia|]. by apply Forall_app.
  - cbn. do 4 (split; [done|]).
    exists new. split; [done|]. split; [lia|done].
Qed.

End RequestFrame.


(** ** [login] *)

Section LoginFacts.
Context `{Library} `{Environment}.

(** [login] once its POST has returned the object [d]. *)
Lemma login_returned data st d st1 :
  _request "post" "/userSessions" None (Some (LoginDetails_asdict data)) None
    false st = (Ok (PDict d), st1) →
  login data st
  = (userId ← lift (v ← py_getitem (PDict d) "userId"; to_opt_str v);
     set_self (with_userId userId);;
     token ← lift (v ← py_getitem (PDict d) "token"; to_opt_str v);
     set_self (with_token token);;
     secretMachineId ←
       lift (v ← py_getitem (PDict d) "secretMachineId"; to_opt_str v);
     set_self (with_secretMachineId secretMachineId);;
     expire ← lift (v ← py_getitem (PDict d) "expire"; hook_isoparse v);
     set_self (with_expire (Some expire));;
     t ← now;
     set_self (with_lastUpdate (Some t));;
     self ← get_self;
     h ← get_session_headers;
     set_session_headers (headers self ∪ h)) st1.
Proof. intros Hreq. unfold login. by rewrite (bind_Ok _ _ _ _ _ Hreq). Qed.

(** X3.  When the POST of [login] returns an object holding the four
    session fields, with a non-empty [userId] and [token] and an [expire]
    that [isoparse] reads, [login] stores them, sets [lastUpdate] to the
    time read after the response, and puts "neos userId:token" on the
    session as [Authorization]; the other session headers stay, except
    [User-Agent]. *)
Theorem login_stores_session
    (data : LoginDetails.t) (st st1 : State) (d : gmap string pyval)
    (u t m s : string) (e : datetime) :
  _request "post" "/userSessions" None (Some (LoginDetails_asdict data)) None
    false st = (Ok (PDict d), st1) →
  d !! "userId" = Some (PStr u) →
  d !! "token" = Some (PStr t) →
  d !! "secretMachineId" = Some (PStr m) →
  d !! "expire" = Some (PStr s) →
  isoparse s = Some e →
  u ≠ "" → t ≠ "" →
  let st' := snd (login data st) in
  fst (login data st) = Ok tt
  ∧ self st'
    = Client.mk (Some u) (Some t) (Some e) (Client.rememberMe (self st1))
        (Some (clock (ticks st1))) (Some m)
  ∧ session_headers st' !! "Authorization" = Some ("neos " +:+ u +:+ ":" +:+ t)
  ∧ (∀ k, k ≠ "Authorization" → k ≠ "User-Agent" →
          session_headers st' !! k = session_headers st1 !! k)
  ∧ sent st' = sent st1.
Proof.
  intros Hreq Hu Ht Hm Hs He Hu' Ht'. cbv zeta.
  rewrite (login_returned _ _ _ _ Hreq).
  unfold py_getitem, mbind, Py_bind, result_bind, bind, lift, now, set_self,
    get_self, get_session_headers, set_session_headers.
  rewrite Hu, Ht, Hm, Hs. cbn. rewrite He. cbn.
  unfold headers. cbn.
  destruct (String.eqb_spec u ""); [done|].
  destruct (String.eqb_spec t ""); [done|]. cbn.
  repeat split.
  - rewrite lookup_union, lookup_insert_eq.
    by destruct (session_headers st1 !! "Authorization").
  - intros k Hk1 Hk2.
    rewrite lookup_union, lookup_insert_ne, lookup_singleton_ne by done.
    by destruct (session_headers st1 !! k).
Qed.

(** X4.  A client whose [lastUpdate] is more than 3600000 seconds old
    cannot log in again: [login] goes through the token refresh like any
    other call, raises [InvalidToken] there, sends nothing and leaves the
    client as it was. *)
Theorem login_blocked_when_expired
    (data : LoginDetails.t) (st : State) (lu : datetime) :
  Client.lastUpdate (self st) = Some lu →
  (renewal_window < clock (ticks st) - lu)%Z →
  login data st
  = (Err (InvalidToken (TokenMessage "Token expired")), tick st).
Proof.
  intros Hlu Hstale. unfold login.
  apply bind_Err. rewrite _request_unfold.
  apply bind_Err. by apply refresh_gate_beyond with lu.
Qed.

(** X5.  [login] assigns the fields one by one: when the returned object
    has a [userId] but no [token], [login] raises [KeyError] with the new
    [userId] already in place beside the old token, and the session's
    headers not updated. *)
Theorem login_partial_on_missing_token
    (data : LoginDetails.t) (st st1 : State) (d : gmap string pyval) (u : string) :
  _request "post" "/userSessions" None (Some (LoginDetails_asdict data)) None
    false st = (Ok (PDict d), st1) →
  d !! "userId" = Some (PStr u) →
  d !! "token" = None →
  login data st
  = (Err (KeyError "token"), with_self (with_userId (Some u) (self st1)) st1).
Proof.
  intros Hreq Hu Ht.
  rewrite (login_returned _ _ _ _ Hreq).
  unfold py_getitem, mbind, Py_bind, result_bind, bind, lift, set_self.
  by rewrite Hu, Ht.
Qed.
End LoginFacts.

Lemma login_stores_session_witness :
  let run := @login Sample.library (Scenario.env_json Scenario.session_document)
               Scenario.details Sample.state_out in
  fst run = Ok tt
  ∧ session_headers (snd run) !! "Authorization" = Some "neos U-abc:tok".
Proof.
  destruct (@login_stores_session Sample.library
              (Scenario.env_json Scenario.session_document) Scenario.details
              Sample.state_out
              (record_sent
                 (@request_of Sample.library POST "/userSessions" None
                    (Some (LoginDetails_asdict Scenario.details)) None
                    Sample.state_out)
                 Sample.state_out)
              Scenario.session_document "U-abc" "tok" "machine"
              "2030-01-01T00:00:00" Sample.t2030)
    as (Hok & _ & Hauth & _); try (vm_compute; reflexivity); try discriminate.
  split; [exact Hok | exact Hauth].
Defined.

Lemma login_blocked_when_expired_witness :
  @login Sample.library Sample.env_ok Scenario.details Sample.state_stale
  = (Err (InvalidToken (TokenMessage "Token expired")), tick Sample.state_stale).
Proof.
  apply (@login_blocked_when_expired Sample.library Sample.env_ok Scenario.details
           Sample.state_stale (Sample.t2022 - 3600001 * 1000000)%Z).
  - reflexivity.
  - vm_compute. reflexivity.
Defined.

Lemma login_partial_on_missing_token_witness :
  let run := @login Sample.library
               (Scenario.env_json {[ "userId" := PStr "U-new" ]})
               Scenario.details Sample.state_in in
  fst run = Err (KeyError "token")
  ∧ Client.userId (self (snd run)) = Some "U-new"
  ∧ Client.token (self (snd run)) = Some "tok".
Proof.
  cbv zeta.
  rewrite (@login_partial_on_missing_token Sample.library
             (Scenario.env_json {[ "userId" := PStr "U-new" ]})
             Scenario.details Sample.state_in
             (snd (@_request Sample.library
                     (Scenario.env_json {[ "userId" := PStr "U-new" ]})
                     "post" "/userSessions" None
                     (Some (LoginDetails_asdict Scenario.details)) None false
                     Sample.state_in))
             {[ "userId" := PStr "U-new" ]} "U-new").
  - repeat split; vm_compute; reflexivity.
  - vm_compute. reflexivity.
  - reflexivity.
  - reflexivity.
Defined.

(** ** [logout], twice *)

Section LogoutTwice.
Context `{Library} `{Environment}.

(** The state a [logout] that returns leaves behind. *)
Lemma logout_returned st :
  fst (logout st) = Ok tt →
  Client.userId (self (snd (logout st))) = None
  ∧ Client.token (self (snd (logout st))) = None
  ∧ session_headers (snd (logout st)) !! "Authorization" = None.
Proof.
  rewrite logout_eq.
  destruct (perform _ _ _ _ _ st) as [[v|e] st1]; [|discriminate].
  rewrite clean_session_eq. cbn zeta.
  destruct (session_headers st1 !! "Authorization"); [|discriminate].
  cbn. intros _. repeat split.
  by rewrite lookup_union, lookup_delete_eq, lookup_singleton_ne.
Qed.

(** X6.  After a [logout] that returned, a second [logout] still sends a
    DELETE, for the session "None/None", and never returns: it raises
    what that request raises, or the [KeyError] of deleting a header
    that is no longer there. *)
Theorem logout_twice (st : State) :
  fst (logout st) = Ok tt →
  let st1 := snd (logout st) in
  let req := request_of DELETE "/userSessions/None/None" None None None st1 in
  sent (snd (logout st1)) = sent st1 ++ [req]
  ∧ fst (logout st1)
    = match server (sent st1) req ≫= classify with
      | Ok _ => Err (KeyError "authorization")
      | Err e => Err e
      end.
Proof.
  intros Hfirst. cbv zeta.
  destruct (logout_returned st Hfirst) as (Hu & Ht & Hauth).
  rewrite (logout_eq (snd (logout st))), Hu, Ht. cbn [str_of_opt].
  change ("/userSessions/" +:+ "None" +:+ "/" +:+ "None")
    with "/userSessions/None/None".
  rewrite (perform_sends _ DELETE) by done.
  destruct (server _ _ ≫= classify); [|done].
  rewrite clean_session_eq. cbn zeta.
  change (session_headers (record_sent _ (snd (logout st))))
    with (session_headers (snd (logout st))).
  by rewrite Hauth.
Qed.
End LogoutTwice.

Lemma logout_twice_witness :
  let st1 := snd (@logout Sample.library Sample.env_ok Sample.state_in) in
  Request.url <$> sent (snd (@logout Sample.library Sample.env_ok st1))
  = ["https://api.example.com/api/userSessions/U-abc/tok";
     "https://api.example.com/api/userSessions/None/None"]
  ∧ fst (@logout Sample.library Sample.env_ok st1) = Err (KeyError "authorization").
Proof.
  destruct (@logout_twice Sample.library Sample.env_ok Sample.state_in)
    as [Hsent Hresult]; [vm_compute; reflexivity|].
  cbv zeta. rewrite Hsent, Hresult. split; vm_compute; reflexivity.
Defined.

(** ** More on the token file *)

Section TokenFileMore.
Context `{Library} `{Environment}.

(** X7.  [saveToken] on a client without [expire] raises
    [AttributeError] after the file has been opened for writing: whatever
    token the file held is gone, and a later [loadToken] raises
    [JSONDecodeError], not [NoTokenError]. *)
Theorem saveToken_without_expire_empties_file (st : State) :
  Client.expire (self st) = None →
  fst (saveToken st) = Err AttributeError
  ∧ authfile (snd (saveToken st)) = NotJSON
  ∧ self (snd (saveToken st)) = self st
  ∧ fst (loadToken (snd (saveToken st))) = Err JSONDecodeError.
Proof.
  intros He. rewrite (saveToken_no_expire _ He). cbn.
  repeat split.
Qed.


(** [loadToken] never assigns [lastUpdate], on any path. *)
Lemma loadToken_lastUpdate st :
  Client.lastUpdate (self (snd (loadToken st))) = Client.lastUpdate (self st)
  ∧ sent (snd (loadToken st)) = sent st
  ∧ authfile (snd (loadToken st)) = authfile st.
Proof.
  unfold loadToken, mbind, Py_bind, result_bind, bind, read_authfile, lift, now,
    set_self, get_self, get_session_headers, set_session_headers, raise.
  destruct (authfile st) as [| |doc] eqn:Hfile; cbn; try by rewrite Hfile.
  destruct (py_getitem doc "expire") as [v|]; cbn; [|by rewrite Hfile].
  destruct (py_fromisoformat v) as [e|]; cbn; [|by rewrite Hfile].
  destruct (clock (ticks st) <? e)%Z; cbn; [|by rewrite Hfile].
  destruct (py_getitem doc "token") as [v1|]; cbn; [|by rewrite Hfile].
  destruct (to_opt_str v1); cbn; [|by rewrite Hfile].
  destruct (py_getitem doc "userId") as [v2|]; cbn; [|by rewrite Hfile].
  destruct (to_opt_str v2); cbn; [|by rewrite Hfile].
  destruct (py_getitem doc "secretMachineId") as [v3|]; cbn; [|by rewrite Hfile].
  destruct (to_opt_str v3); cbn; by rewrite Hfile.
Qed.

(** X9.  A session restored by [loadToken] is never refreshed and never
    expires locally: [loadToken] does not set [lastUpdate], so on a
    client that had none every later [_request] sends its one request
    straight away, with the session's headers, however much time has
    passed. *)
Theorem loadToken_session_not_refreshed
    (st : State) (verb : string) (m : http_method) (path : string)
    (data json params : option pyval) :
  Client.lastUpdate (self st) = None →
  session_method verb = Some m →
  let st1 := snd (loadToken st) in
  Client.lastUpdate (self st1) = None
  ∧ _request verb path data json params false st1
    = (server (sent st) (request_of m path data json params st1) ≫= classify,
       record_sent (request_of m path data json params st1) st1).
Proof.
  intros Hlu Hm. cbv zeta.
  destruct (loadToken_lastUpdate st) as (Hlu' & Hsent & _).
  rewrite Hlu in Hlu'. split; [done|].
  rewrite (_request_passed verb m _ _ _ _ _ _ _
             (refresh_gate_no_lastUpdate _ _ _ Hlu') Hm).
  by rewrite Hsent.
Qed.
End TokenFileMore.

Lemma saveToken_without_expire_empties_file_witness :
  authfile Scenario.state_no_expire = Document Sample.saved_document
  ∧ authfile (snd (@saveToken Sample.library Scenario.state_no_expire)) = NotJSON
  ∧ fst (@loadToken Sample.library Sample.env_ok
           (snd (@saveToken Sample.library Scenario.state_no_expire)))
    = Err JSONDecodeError.
Proof.
  destruct (@saveToken_without_expire_empties_file Sample.library Sample.env_ok
              Scenario.state_no_expire eq_refl) as (_ & Hfile & _ & Hload).
  split; [reflexivity|]. split; [exact Hfile | exact Hload].
Defined.


Lemma loadToken_session_not_refreshed_witness :
  let st1 := snd (@loadToken Sample.library Sample.env_ok Sample.state_restarted) in
  Request.method <$> sent (snd (@_request Sample.library Sample.env_ok "get"
                                  "/users/U-abc" None None None false st1))
  = [GET].
Proof.
  destruct (@loadToken_session_not_refreshed Sample.library Sample.env_ok
              Sample.state_restarted "get" GET "/users/U-abc" None None None
              eq_refl eq_refl) as [_ Hreq].
  cbv zeta. rewrite Hreq. vm_compute. reflexivity.
Defined.

(** ** More on record decoding *)

Section DecodingMore.
Context `{Library}.

Lemma processRecordList_loop_app a b acc :
  processRecordList_loop (a ++ b) acc
  = (acc' ← processRecordList_loop a acc; processRecordList_loop b acc').
Proof.
  revert acc. induction a as [|raw a IH]; intros acc; [done|].
  cbn [app processRecordList_loop].
  destruct (from_dict_NeosRecord raw) as [item|]; [|done]. cbn.
  destruct (from_dict _ raw) as [x|]; [|done]. cbn.
  apply IH.
Qed.

Lemma processRecordList_loop_acc data acc :
  processRecordList_loop data acc
  = (xs ← processRecordList_loop data []; Ok (acc ++ xs)).
Proof.
  revert acc. induction data as [|raw data IH]; intros acc.
  - cbn. by rewrite app_nil_r.
  - cbn [processRecordList_loop].
    destruct (from_dict_NeosRecord raw) as [item|]; [|done]. cbn.
    destruct (from_dict _ raw) as [x|]; [|done]. cbn.
    rewrite (IH (acc ++ [x])), (IH [x]).
    destruct (processRecordList_loop data []) as [xs|]; [|done]. cbn.
    by rewrite <- app_assoc.
Qed.

(** X10.  Decoding a concatenation is decoding the parts: the result for
    [a ++ b] is the instances of [a] followed by those of [b], and the
    first payload that fails, in [a] or else in [b], gives the
    exception. *)
Theorem processRecordList_app (a b : list pyval) :
  processRecordList (a ++ b)
  = (xs ← processRecordList a; ys ← processRecordList b; Ok (xs ++ ys)).
Proof.
  unfold processRecordList. rewrite processRecordList_loop_app.
  destruct (processRecordList_loop a []) as [xs|]; [|done]. cbn.
  apply processRecordList_loop_acc.
Qed.

(** X11.  [lastModifyingMachineId] is optional for a directory and
    required for an object: a payload in which it is [null] or missing is
    rejected as an object ([WrongTypeError], [MissingValueError]) and
    accepted as a directory, the field being [None]. *)
Theorem machine_id_optional_for_directory_only
    (d : gmap string pyval) (r : NeosRecord.t) :
  fields_NeosRecord d = Ok r →
  d !! "lastModifyingMachineId" = None ∨ d !! "lastModifyingMachineId" = Some PNone →
  (∀ a, d !! "assetUri" = Some (PStr a) →
        from_dict CNeosObject (PDict d)
        = Err (match d !! "lastModifyingMachineId" with
               | None => MissingValueError "lastModifyingMachineId"
               | Some _ => WrongTypeError "lastModifyingMachineId"
               end))
  ∧ (∀ ownerName tags creationTime,
       d !! "ownerName" = Some (PStr ownerName) →
       d !! "tags" = Some (PList (PStr <$> tags)) →
       opt_datetime_value (d !! "creationTime") creationTime →
       from_dict CNeosDirectory (PDict d)
       = Ok (IDirectory (NeosDirectory.mk r None ownerName tags creationTime))).
Proof.
  intros Hr Hnull. split.
  - intros a Ha. cbn. unfold from_dict_NeosObject. cbn. rewrite Hr. cbn.
    unfold field_str. rewrite Ha. cbn.
    by destruct Hnull as [-> | ->].
  - intros ownerName tags creationTime Hn Ht Hc. cbn.
    unfold from_dict_NeosDirectory. cbn. rewrite Hr. cbn.
    replace (field_opt_str d "lastModifyingMachineId") with (Ok (@None string))
      by (unfold field_opt_str; by destruct Hnull as [-> | ->]).
    unfold field_str. rewrite Hn.
    by rewrite (field_list_str_value _ _ _ Ht), (field_opt_datetime_value _ _ _ Hc).
Qed.
End DecodingMore.

Lemma machine_id_optional_for_directory_only_witness :
  @from_dict Sample.library CNeosObject
    (PDict (<[ "assetUri" := PStr "neosdb:///abc.7z" ]>
              (Sample.base_fields "R-5" "Cube" "object")))
  = Err (MissingValueError "lastModifyingMachineId")
  ∧ @from_dict Sample.library CNeosDirectory Sample.directory_payload
    = Ok (IDirectory Sample.directory_instance).
Proof.
  split.
  - destruct (@machine_id_optional_for_directory_only Sample.library
                (<[ "assetUri" := PStr "neosdb:///abc.7z" ]>
                   (Sample.base_fields "R-5" "Cube" "object"))
                (Sample.base_record "R-5" "Cube" OBJECT)) as [Hobject _].
    + vm_compute. reflexivity.
    + left. vm_compute. reflexivity.
    + rewrite (Hobject "neosdb:///abc.7z"); vm_compute; reflexivity.
  - destruct (@machine_id_optional_for_directory_only Sample.library
                (<[ "ownerName" := PStr "abc" ]> (
                 <[ "tags" := PList [PStr "a"; PStr "b"] ]> (
                 <[ "creationTime" := PStr "2022-01-01T00:00:00" ]> (
                 Sample.base_fields "R-def" "Foo" "directory"))))
                (Sample.base_record "R-def" "Foo" DIRECTORY)) as [_ Hdirectory].
    + vm_compute. reflexivity.
    + left. vm_compute. reflexivity.
    + apply (Hdirectory "abc" ["a"; "b"] (Some Sample.t2022)).
      * vm_compute. reflexivity.
      * vm_compute. reflexivity.
      * sample_payload.
Defined.

(** ** More on [resolveLink] *)

Lemma str_split_length (c : Ascii.ascii) (s : string) :
  List.length (str_split c s) = S (str_count c s).
Proof.
  induction s as [|c' s IH]; [done|]. cbn [str_split str_count].
  destruct (Ascii.eqb c' c); cbn [List.length]; [by rewrite IH|].
  destruct (str_split c s) as [|w ws]; cbn in *; [discriminate|lia].
Qed.

Section ResolveLinkMore.
Context `{Library} `{Environment}.

(** X13.  [resolveLink] needs a path with exactly two slashes: with any
    other number of them the unpacking raises [ValueError], nothing is
    sent and the state is as before. *)
Theorem resolveLink_needs_two_slashes (st : State) (link : NeosLink.t) :
  str_count "/" (ParseResult.path (NeosLink.assetUri link)) ≠ 2 →
  resolveLink link st
  = (Err (ValueError
            (VEUnpack 3 (S (str_count "/" (ParseResult.path (NeosLink.assetUri link)))))),
     st).
Proof.
  intros Hcount. unfold resolveLink.
  rewrite <- str_split_length.
  pose proof (str_split_length "/" (ParseResult.path (NeosLink.assetUri link)))
    as Hlen.
  destruct (str_split "/" _) as [|a [|b [|c [|d parts]]]]; cbn in *; try done.
  lia.
Qed.

(** X14.  End to end: for a link whose path is /owner/record, on a
    client without [lastUpdate], when the server answers the GET with
    status 200 and a JSON object without a ["message"] key that holds the
    fields of a directory, [resolveLink] returns that directory.  The
    [recordType] of the answer is not looked at: any record with the
    directory's fields is returned as a [NeosDirectory]. *)
Theorem resolveLink_returns_directory
    (st : State) (link : NeosLink.t) (user record : string)
    (resp : Response.t) (d : gmap string pyval) (dir : NeosDirectory.t) :
  str_has_char "/" user = false →
  str_has_char "/" record = false →
  ParseResult.path (NeosLink.assetUri link) = "/" +:+ user +:+ "/" +:+ record →
  Client.lastUpdate (self st) = None →
  server (sent st)
    (request_of GET ("/users/" +:+ user +:+ "/records/" +:+ record)
       None None None st) = Ok resp →
  Response.status_code resp = 200%Z →
  Response.json resp = Some (PDict d) →
  d !! "message" = None →
  encodes_NeosRecord d (NeosDirectory.base dir) →
  encodes_own_fields d (IDirectory dir) →
  resolveLink link st
  = (Ok dir,
     record_sent
       (request_of GET ("/users/" +:+ user +:+ "/records/" +:+ record)
          None None None st) st).
Proof.
  intros Hu Hr Hpath Hlu Hresp Hstatus Hjson Hmsg Hbase Hown.
  unfold resolveLink. rewrite Hpath, (str_split_owner_record _ _ Hu Hr).
  unfold mbind at 1, Py_bind, bind.
  rewrite (_request_passed "get" GET _ _ _ _ _ _ _
             (refresh_gate_no_lastUpdate _ _ _ Hlu) eq_refl).
  rewrite Hresp. cbn [mbind result_bind rbind].
  rewrite (classify_200_object _ _ Hstatus Hjson), Hmsg.
  unfold lift. by rewrite (from_dict_NeosDirectory_encodes _ _ Hbase Hown).
Qed.
End ResolveLinkMore.

Lemma resolveLink_needs_two_slashes_witness :
  @resolveLink Sample.library Sample.env_ok
    (NeosLink.mk (Sample.base_record "R-1" "Shared" LINK)
       (ParseResult.mk "neosrec" "" "/U-abc/Inventory/R-def" "" "" ""))
    Sample.state_in
  = (Err (ValueError (VEUnpack 3 4)), Sample.state_in).
Proof.
  apply (@resolveLink_needs_two_slashes Sample.library Sample.env_ok
           Sample.state_in). vm_compute. discriminate.
Defined.

Lemma resolveLink_returns_directory_witness :
  fst (@resolveLink Sample.library
         (Scenario.env_json (Scenario.directory_fields "object"))
         Sample.link_instance Sample.state_out)
  = Ok Scenario.object_as_directory.
Proof.
  rewrite (@resolveLink_returns_directory Sample.library
             (Scenario.env_json (Scenario.directory_fields "object"))
             Sample.state_out Sample.link_instance "U-abc" "R-def"
             (Sample.response 200 "{...}"
                (Some (PDict (Scenario.directory_fields "object"))))
             (Scenario.directory_fields "object") Scenario.object_as_directory);
    sample_payload.
Defined.

(** ** [getInventory] *)

Section Inventory.
Context `{Library} `{Environment}.

(** The request of [getInventory], as sent from [st]. *)
Lemma getInventory_unfold st :
  Client.lastUpdate (self st) = None →
  let req :=
    Request.mk GET
      (CLOUDX_NEOS_API +:+ "/users/" +:+ str_of_opt (Client.userId (self st))
         +:+ "/records")
      None None (Some (PDict {[ "path" := PStr "Inventory" ]}))
      (session_headers st) in
  getInventory st
  = ((response ← (server (sent st) req ≫= classify);
      data ← py_iter response;
      processRecordList data),
     record_sent req st).
Proof.
  intros Hlu req. unfold getInventory, mbind at 1, Py_bind, bind at 1, get_self.
  unfold mbind at 1, Py_bind, bind at 1.
  rewrite (_request_passed "get" GET _ _ _ _ _ _ _
             (refresh_gate_no_lastUpdate _ _ _ Hlu) eq_refl).
  unfold lift. by destruct (server _ _ ≫= classify).
Qed.

Lemma encodes_not_message data xs :
  Forall2 encodes data xs → PStr "message" ∉ data.
Proof.
  induction 1 as [|raw x data xs (d & -> & _) _ IH].
  - apply not_elem_of_nil.
  - apply not_elem_of_cons. by split.
Qed.

(** X15.  End to end, on a client without [lastUpdate]: [getInventory]
    sends one GET for the user's records with the query [path=Inventory],
    and when the answer is status 200 with a JSON array of well-formed
    payloads it returns the instances they encode, in order. *)
Theorem getInventory_returns_records
    (st : State) (resp : Response.t) (data : list pyval)
    (xs : list record_instance) :
  Client.lastUpdate (self st) = None →
  let req :=
    Request.mk GET
      (CLOUDX_NEOS_API +:+ "/users/" +:+ str_of_opt (Client.userId (self st))
         +:+ "/records")
      None None (Some (PDict {[ "path" := PStr "Inventory" ]}))
      (session_headers st) in
  server (sent st) req = Ok resp →
  Response.status_code resp = 200%Z →
  Response.json resp = Some (PList data) →
  Forall2 encodes data xs →
  getInventory st = (Ok xs, record_sent req st).
Proof.
  intros Hlu req Hresp Hstatus Hjson Hall.
  rewrite (getInventory_unfold _ Hlu). fold req. rewrite Hresp.
  cbn [mbind result_bind rbind].
  rewrite (classify_200_array _ _ Hstatus Hjson (encodes_not_message _ _ Hall)).
  unfold mbind, result_bind. cbn [rbind py_iter]. unfold processRecordList.
  by rewrite (processRecordList_loop_encodes _ _ [] Hall).
Qed.

(** X16.  [getInventory] iterates whatever [_request] returns.  On a
    client without [lastUpdate]: a 204 answer makes it raise [TypeError]
    ([None] is not iterable); a 200 answer that is not JSON gives the
    empty list when the body is empty, and otherwise what [from_dict]
    raises on the first character of the body; a 200 answer that is a
    JSON object without ["message"] gives the empty list for the empty
    object, and otherwise what [from_dict] raises on one of its keys.
    So no such answer is taken for an inventory that has records. *)
Theorem getInventory_not_an_array (st : State) (resp : Response.t) :
  Client.lastUpdate (self st) = None →
  server (sent st)
    (Request.mk GET
       (CLOUDX_NEOS_API +:+ "/users/" +:+ str_of_opt (Client.userId (self st))
          +:+ "/records")
       None None (Some (PDict {[ "path" := PStr "Inventory" ]}))
       (session_headers st)) = Ok resp →
  (Response.status_code resp = 204%Z → fst (getInventory st) = Err TypeError)
  ∧ (Response.status_code resp = 200%Z → Response.json resp = None →
     fst (getInventory st)
     = match Response.text resp with
       | EmptyString => Ok []
       | String c _ =>
           Err (from_dict_non_mapping "id" (PStr (String c EmptyString)))
       end)
  ∧ (∀ d, Response.status_code resp = 200%Z →
          Response.json resp = Some (PDict d) → d !! "message" = None →
          (d = ∅ ∧ fst (getInventory st) = Ok [])
          ∨ (∃ k, is_Some (d !! k)
                  ∧ fst (getInventory st)
                    = Err (from_dict_non_mapping "id" (PStr k)))).
Proof.
  intros Hlu Hresp. rewrite (getInventory_unfold _ Hlu), Hresp.
  unfold mbind, result_bind. cbn [fst rbind]. split; [|split].
  - intros Hstatus. by rewrite (classify_204 _ Hstatus).
  - intros Hstatus Hjson. rewrite (classify_200_text _ Hstatus Hjson).
    cbn [rbind py_iter].
    by destruct (Response.text resp) as [|c s].
  - intros d Hstatus Hjson Hmsg.
    rewrite (classify_200_object _ _ Hstatus Hjson), Hmsg.
    cbn [rbind py_iter].
    destruct (map_to_list d) as [|[k v] l] eqn:Hl.
    + left. by apply map_to_list_empty_iff in Hl as ->.
    + right. exists k. split; [|done].
      exists v. apply elem_of_map_to_list. rewrite Hl. apply list_elem_of_here.
Qed.
End Inventory.

Lemma getInventory_returns_records_witness :
  fst (@getInventory Sample.library
         (Scenario.env_array
            [Sample.link_payload; Sample.directory_payload; Sample.world_payload])
         Sample.state_out)
  = Ok [ILink Sample.link_instance; IDirectory Sample.directory_instance;
        IWorld Sample.world_instance].
Proof.
  rewrite (@getInventory_returns_records Sample.library
             (Scenario.env_array
                [Sample.link_payload; Sample.directory_payload;
                 Sample.world_payload])
             Sample.state_out
             (Sample.response 200 "[...]"
                (Some (PList [Sample.link_payload; Sample.directory_payload;
                              Sample.world_payload])))
             [Sample.link_payload; Sample.directory_payload; Sample.world_payload]
             [ILink Sample.link_instance; IDirectory Sample.directory_instance;
              IWorld Sample.world_instance]);
    sample_payload.
Defined.

Lemma getInventory_not_an_array_witness :
  fst (@getInventory Sample.library
         (Sample.env_always (Sample.response 204 "" None)) Sample.state_out)
  = Err TypeError
  ∧ fst (@getInventory Sample.library
           (Sample.env_always (Sample.response 200 "<html>" None))
           Sample.state_out)
    = Err (@from_dict_non_mapping Sample.library "id" (PStr "<")).
Proof.
  split.
  - destruct (@getInventory_not_an_array Sample.library
                (Sample.env_always (Sample.response 204 "" None))
                Sample.state_out (Sample.response 204 "" None)
                eq_refl eq_refl) as (H204 & _).
    apply H204. reflexivity.
  - destruct (@getInventory_not_an_array Sample.library
                (Sample.env_always (Sample.response 200 "<html>" None))
                Sample.state_out (Sample.response 200 "<html>" None)
                eq_refl eq_refl) as (_ & Htext & _).
    apply Htext; reflexivity.
Defined.

(** ** [neosDBSignature] and [neosDbToHttp] *)

Lemma str_split_by_go_nonempty (sep : string) (skip : nat) (s : string) :
  str_split_by_go sep skip s ≠ [].
Proof.
  revert skip. induction s as [|c s IH]; intros skip; [done|].
  cbn [str_split_by_go]. destruct skip as [|skip]; [|apply IH].
  destruct (String.prefix sep (String c s)); [done|].
  by destruct (str_split_by_go sep 0 s).
Qed.

Lemma str_split_by_absent (sep s : string) :
  str_contains sep s = false → str_split_by sep s = [s].
Proof.
  unfold str_split_by. induction s as [|c s IH]; [done|].
  cbn [str_contains str_split_by_go].
  destruct (String.prefix sep (String c s)); [done|]. cbn [orb].
  intros Hs. by rewrite (IH Hs).
Qed.

Lemma str_split_by_present (c0 : Ascii.ascii) (sep' s : string) :
  str_contains (String c0 sep') s = true →
  (2 ≤ List.length (str_split_by (String c0 sep') s))%nat.
Proof.
  unfold str_split_by. induction s as [|c s IH]; [done|].
  cbn [str_contains str_split_by_go].
  destruct (String.prefix (String c0 sep') (String c s)).
  - intros _. cbn [List.length]. apply le_n_S.
    pose proof (str_split_by_go_nonempty (String c0 sep')
                  (String.length (String c0 sep') - 1) s) as Hne.
    revert Hne.
    generalize (str_split_by_go (String c0 sep')
                  (String.length (String c0 sep') - 1) s).
    intros [|w ws] Hne; [done|cbn; lia].
  - cbn [orb]. intros Hs. specialize (IH Hs).
    destruct (str_split_by_go (String c0 sep') 0 s); cbn in *; lia.
Qed.

(** A stretch without slashes stays in the part it starts in. *)
Lemma str_split_by_slashes_app (u t : string) :
  str_has_char "/" u = false →
  str_split_by_go "//" 0 (u +:+ t)
  = match str_split_by_go "//" 0 t with
    | w :: ws => (u +:+ w) :: ws
    | [] => [u]
    end.
Proof.
  induction u as [|c u IH].
  - intros _. change ("" +:+ t) with t.
    pose proof (str_split_by_go_nonempty "//" 0 t) as Hne. revert Hne.
    generalize (str_split_by_go "//" 0 t). by intros [|w ws] Hne.
  - change (String c u +:+ t) with (String c (u +:+ t)).
    cbn [str_has_char]. destruct (Ascii.eqb_spec c "/") as [->|Hc]; [done|].
    cbn [orb]. intros Hu.
    cbn [str_split_by_go String.prefix].
    destruct (Ascii.ascii_dec "/" c) as [<-|_]; [done|].
    rewrite (IH Hu).
    pose proof (str_split_by_go_nonempty "//" 0 t) as Hne. revert Hne.
    generalize (str_split_by_go "//" 0 t). by intros [|w ws] Hne.
Qed.

(** The first part of what follows the separator, when that starts with
    the signature and a dot. *)
Lemma str_split_by_slashes_signature (sig ext : string) :
  str_has_char "/" sig = false →
  ∃ w ws, str_split_by_go "//" 0 (sig +:+ String "." ext)
          = (sig +:+ String "." w) :: ws.
Proof.
  intros Hsig. rewrite (str_split_by_slashes_app _ _ Hsig).
  cbn [str_split_by_go String.prefix].
  destruct (Ascii.ascii_dec "/" ".") as [Heq|_]; [discriminate|].
  pose proof (str_split_by_go_nonempty "//" 0 ext) as Hne. revert Hne.
  generalize (str_split_by_go "//" 0 ext). intros [|w ws] Hne; [done|]. eauto.
Qed.

Lemma prefix_slash_signature (sig ext : string) :
  str_has_char "/" sig = false →
  String.prefix "/" (sig +:+ String "." ext) = false.
Proof.
  destruct sig as [|c sig].
  - intros _. change ("" +:+ String "." ext) with (String "." ext).
    cbn [String.prefix]. by destruct (Ascii.ascii_dec "/" ".").
  - change (String c sig +:+ String "." ext)
      with (String c (sig +:+ String "." ext)).
    cbn [str_has_char String.prefix].
    destruct (Ascii.eqb_spec c "/") as [->|Hc]; [done|]. intros _.
    by destruct (Ascii.ascii_dec "/" c) as [<-|_].
Qed.

(** X17.  [neosDbToHttp] on scheme:///signature.extension, where the
    scheme and the signature hold no slash and the signature no dot,
    gives https://assets.neos.com/assets/signature: the slash comes from
    the third slash of the URL.  On scheme://signature.extension the
    signature is appended to "assets" with nothing in between. *)
Theorem neosDbToHttp_signature (pre sig ext : string) :
  str_has_char "/" pre = false →
  str_has_char "/" sig = false →
  str_has_char "." sig = false →
  neosDbToHttp (pre +:+ "///" +:+ sig +:+ "." +:+ ext)
  = Some ("https://assets.neos.com/assets/" +:+ sig)
  ∧ neosDbToHttp (pre +:+ "//" +:+ sig +:+ "." +:+ ext)
    = Some ("https://assets.neos.com/assets" +:+ sig).
Proof.
  intros Hpre Hslash Hdot.
  destruct (str_split_by_slashes_signature sig ext Hslash) as (w & ws & Hsig).
  unfold neosDbToHttp, neosDBSignature, str_split_by. split.
  - rewrite (str_split_by_slashes_app _ _ Hpre).
    change ("///" +:+ sig +:+ "." +:+ ext)
      with (String "/" (String "/" (String "/" (sig +:+ String "." ext)))).
    cbn [str_split_by_go String.prefix String.length Nat.sub].
    destruct (Ascii.ascii_dec "/" "/") as [_|Hne]; [|done].
    rewrite (prefix_slash_signature _ _ Hslash).
    rewrite Hsig.
    change (String "/" (sig +:+ String "." w))
      with (String "/" sig +:+ String "." w).
    rewrite str_split_app; [done|].
    cbn [str_has_char]. by rewrite Hdot.
  - rewrite (str_split_by_slashes_app _ _ Hpre).
    change ("//" +:+ sig +:+ "." +:+ ext)
      with (String "/" (String "/" (sig +:+ String "." ext))).
    cbn [str_split_by_go String.prefix String.length Nat.sub].
    destruct (Ascii.ascii_dec "/" "/") as [_|Hne]; [|done].
    replace (String.prefix "" (sig +:+ String "." ext)) with true
      by (by destruct (sig +:+ String "." ext)).
    rewrite Hsig. by rewrite (str_split_app _ _ _ Hdot).
Qed.

(** X18.  [neosDBSignature], and with it [neosDbToHttp], raises
    [IndexError] exactly when the URL has no "//" in it. *)
Theorem neosDBSignature_needs_double_slash (url : string) :
  (neosDBSignature url = None ↔ str_contains "//" url = false)
  ∧ (neosDbToHttp url = None ↔ str_contains "//" url = false).
Proof.
  assert (neosDBSignature url = None ↔ str_contains "//" url = false) as Hsig.
  { unfold neosDBSignature. split.
    - destruct (str_contains "//" url) eqn:Hc; [|done].
      pose proof (str_split_by_present _ _ _ Hc) as Hlen.
      destruct (str_split_by "//" url) as [|a [|part parts]];
        cbn in Hlen; try lia.
      pose proof (str_split_length "." part) as Hparts.
      by destruct (str_split "." part).
    - intros Hc. by rewrite (str_split_by_absent _ _ Hc). }
  split; [done|]. unfold neosDbToHttp.
  rewrite <- Hsig. by destruct (neosDBSignature url).
Qed.

Lemma neosDbToHttp_signature_witness :
  neosDbToHttp "neosdb:///4f2a9c.7z" = Some "https://assets.neos.com/assets/4f2a9c"
  ∧ neosDbToHttp "neosdb://4f2a9c.7z" = Some "https://assets.neos.com/assets4f2a9c".
Proof.
  apply (neosDbToHttp_signature "neosdb:" "4f2a9c" "7z"); reflexivity.
Defined.

Example neosDBSignature_no_slashes : neosDBSignature "4f2a9c.7z" = None.
Proof. reflexivity. Qed.

(** Python's [split] takes the separators from the left. *)
Example str_split_by_three_slashes :
  str_split_by "//" "a///b" = ["a"; "/b"]
  ∧ str_split_by "//" "a////b" = ["a"; ""; "b"].
Proof. split; reflexivity. Qed.

(** ** Cloud variables *)

Section CloudVars.
Context `{Library} `{Environment} `{Utils}.

(** [getOwnerPath] on an owner that is a user or a group. *)
Lemma getOwnerPath_known (ownerId : string) :
  getOwnerType ownerId ≠ OTHER →
  getOwnerPath ownerId
  = Ok (match getOwnerType ownerId with USER => "users" | _ => "groups" end).
Proof. unfold getOwnerPath. by destruct (getOwnerType ownerId). Qed.

Lemma from_dict_NeosCloudVar_encodes data x :
  encodes_cloud_var data x → from_dict_NeosCloudVar data = Ok x.
Proof.
  intros (d & -> & Ho & Hp & Hv & Hk & Hr & Ht & He).
  unfold from_dict_NeosCloudVar, mbind, result_bind, field_str. cbn [as_dict rbind].
  rewrite Ho, Hp, Hv, Hk, Hr, Ht, He. cbn [rbind]. by destruct x.
Qed.

Lemma decode_cloud_vars_encodes data xs :
  Forall2 encodes_cloud_var data xs → decode_cloud_vars data = Ok xs.
Proof.
  induction 1 as [|raw x data xs Hx _ IH]; [done|].
  cbn [decode_cloud_vars]. unfold mbind, result_bind.
  rewrite (from_dict_NeosCloudVar_encodes _ _ Hx). cbn [rbind].
  by rewrite IH.
Qed.

Lemma encodes_cloud_var_not_message data xs :
  Forall2 encodes_cloud_var data xs → PStr "message" ∉ data.
Proof.
  induction 1 as [|raw x data xs (d & -> & _) _ IH].
  - apply not_elem_of_nil.
  - apply not_elem_of_cons. by split.
Qed.

(** X19.  For an owner that is neither a user nor a group, the three
    cloud-variable operations raise [ValueError] with the message
    "invalid ownerType for <ownerId>" before anything is sent: the
    state, and so the list of requests, is unchanged. *)
Theorem cloudVar_invalid_owner (ownerId path value : string) (st : State) :
  getOwnerType ownerId = OTHER →
  let e := ValueError (VEMessage ("invalid ownerType for " +:+ ownerId)) in
  listCloudVar ownerId st = (Err e, st)
  ∧ getCloudVar ownerId path st = (Err e, st)
  ∧ setCloudVar ownerId path value st = (Err e, st).
Proof.
  intros Hty e.
  unfold listCloudVar, getCloudVar, setCloudVar, mbind, Py_bind, bind, lift,
    getOwnerPath.
  by rewrite Hty.
Qed.

(** X20.  End to end, on a client without [lastUpdate] and for a user or
    a group: [listCloudVar] sends one GET to /users/<ownerId>/vars or
    /groups/<ownerId>/vars, and when the answer is status 200 with a JSON
    array of objects that hold the seven string fields, it returns the
    variables they encode, in order. *)
Theorem listCloudVar_returns_vars
    (ownerId : string) (st : State) (resp : Response.t)
    (data : list pyval) (xs : list NeosCloudVar.t) :
  Client.lastUpdate (self st) = None →
  getOwnerType ownerId ≠ OTHER →
  let prefix := match getOwnerType ownerId with USER => "users" | _ => "groups" end in
  let req :=
    Request.mk GET
      (CLOUDX_NEOS_API +:+ "/" +:+ prefix +:+ "/" +:+ ownerId +:+ "/vars")
      None None None (session_headers st) in
  server (sent st) req = Ok resp →
  Response.status_code resp = 200%Z →
  Response.json resp = Some (PList data) →
  Forall2 encodes_cloud_var data xs →
  listCloudVar ownerId st = (Ok xs, record_sent req st).
Proof.
  intros Hlu Hty prefix req Hresp Hstatus Hjson Hall.
  unfold listCloudVar, mbind at 1, Py_bind, bind at 1, lift at 1.
  rewrite (getOwnerPath_known _ Hty). fold prefix.
  unfold mbind at 1, Py_bind, bind at 1.
  rewrite (_request_passed "get" GET _ _ _ _ _ _ _
             (refresh_gate_no_lastUpdate _ _ _ Hlu) eq_refl).
  change (request_of GET _ None None None st) with req.
  rewrite Hresp. cbn [mbind result_bind rbind].
  rewrite (classify_200_array _ _ Hstatus Hjson
             (encodes_cloud_var_not_message _ _ Hall)).
  unfold lift, mbind, result_bind. cbn [rbind py_iter].
  by rewrite (decode_cloud_vars_encodes _ _ Hall).
Qed.

(** X21.  Writing and reading one variable, on a client without
    [lastUpdate] and for a user or a group.  [setCloudVar] sends one PUT
    to /<users|groups>/<ownerId>/vars/<path> whose JSON body has exactly
    the keys ownerId, path and value, and returns what the answer is
    classified as.  [getCloudVar] sends one GET to the same URL, and when
    the answer is status 200 with an object that holds the seven string
    fields and no "message", it returns the variable. *)
Theorem cloudVar_set_get
    (ownerId path value : string) (st : State) :
  Client.lastUpdate (self st) = None →
  getOwnerType ownerId ≠ OTHER →
  let prefix := match getOwnerType ownerId with USER => "users" | _ => "groups" end in
  let url := CLOUDX_NEOS_API +:+ "/" +:+ prefix +:+ "/" +:+ ownerId
               +:+ "/vars/" +:+ path in
  let put :=
    Request.mk PUT url None
      (Some (PDict (<[ "ownerId" := PStr ownerId ]> (
                    <[ "path" := PStr path ]> (
                    <[ "value" := PStr value ]> ∅)))))
      None (session_headers st) in
  let get := Request.mk GET url None None None (session_headers st) in
  setCloudVar ownerId path value st
  = (server (sent st) put ≫= classify, record_sent put st)
  ∧ ∀ resp d x,
      server (sent st) get = Ok resp →
      Response.status_code resp = 200%Z →
      Response.json resp = Some (PDict d) →
      d !! "message" = None →
      encodes_cloud_var (PDict d) x →
      getCloudVar ownerId path st = (Ok x, record_sent get st).
Proof.
  intros Hlu Hty prefix url put get. split.
  - unfold setCloudVar, mbind at 1, Py_bind, bind at 1, lift at 1.
    rewrite (getOwnerPath_known _ Hty). fold prefix.
    by rewrite (_request_passed "put" PUT _ _ _ _ _ _ _
                  (refresh_gate_no_lastUpdate _ _ _ Hlu) eq_refl).
  - intros resp d x Hresp Hstatus Hjson Hmsg Hx.
    unfold getCloudVar, mbind at 1, Py_bind, bind at 1, lift at 1.
    rewrite (getOwnerPath_known _ Hty). fold prefix.
    unfold mbind at 1, Py_bind, bind at 1.
    rewrite (_request_passed "get" GET _ _ _ _ _ _ _
               (refresh_gate_no_lastUpdate _ _ _ Hlu) eq_refl).
    change (request_of GET _ None None None st) with get.
    rewrite Hresp. cbn [mbind result_bind rbind].
    rewrite (classify_200_object _ _ Hstatus Hjson), Hmsg.
    unfold lift. by rewrite (from_dict_NeosCloudVar_encodes _ _ Hx).
Qed.
End CloudVars.

Lemma cloudVar_invalid_owner_witness :
  fst (@setCloudVar Sample.library Sample.env_ok Scenario.utils
         "M-machine" "M-machine.colour" "red" Sample.state_out)
  = Err (ValueError (VEMessage "invalid ownerType for M-machine"))
  ∧ sent (snd (@setCloudVar Sample.library Sample.env_ok Scenario.utils
                 "M-machine" "M-machine.colour" "red" Sample.state_out))
    = sent Sample.state_out.
Proof.
  destruct (@cloudVar_invalid_owner Sample.library Sample.env_ok Scenario.utils
              "M-machine" "M-machine.colour" "red" Sample.state_out eq_refl)
    as (_ & _ & ->).
  split; reflexivity.
Defined.

Lemma cloud_var_fields_encode (value : string) :
  encodes_cloud_var (PDict (Scenario.cloud_var_fields value))
    (Scenario.cloud_var value).
Proof. exists (Scenario.cloud_var_fields value). by repeat split. Qed.

Lemma listCloudVar_returns_vars_witness :
  fst (@listCloudVar Sample.library
         (Scenario.env_array
            [PDict (Scenario.cloud_var_fields "red");
             PDict (Scenario.cloud_var_fields "blue")])
         Scenario.utils "U-abc" Sample.state_out)
  = Ok [Scenario.cloud_var "red"; Scenario.cloud_var "blue"].
Proof.
  rewrite (@listCloudVar_returns_vars Sample.library
             (Scenario.env_array
                [PDict (Scenario.cloud_var_fields "red");
                 PDict (Scenario.cloud_var_fields "blue")])
             Scenario.utils "U-abc" Sample.state_out
             (Sample.response 200 "[...]"
                (Some (PList [PDict (Scenario.cloud_var_fields "red");
                              PDict (Scenario.cloud_var_fields "blue")])))
             [PDict (Scenario.cloud_var_fields "red");
              PDict (Scenario.cloud_var_fields "blue")]
             [Scenario.cloud_var "red"; Scenario.cloud_var "blue"]);
    [reflexivity|reflexivity|discriminate|reflexivity|reflexivity|reflexivity|].
  repeat constructor; apply cloud_var_fields_encode.
Defined.

Lemma cloudVar_set_get_witness :
  fst (@getCloudVar Sample.library
         (Scenario.env_json (Scenario.cloud_var_fields "red"))
         Scenario.utils "G-team" "G-team.colour" Sample.state_out)
  = Ok (Scenario.cloud_var "red").
Proof.
  destruct (@cloudVar_set_get Sample.library
              (Scenario.env_json (Scenario.cloud_var_fields "red"))
              Scenario.utils "G-team" "G-team.colour" "red" Sample.state_out
              eq_refl) as (_ & Hget); [discriminate|].
  rewrite (Hget (Sample.response 200 "{...}"
                   (Some (PDict (Scenario.cloud_var_fields "red"))))
             (Scenario.cloud_var_fields "red") (Scenario.cloud_var "red"));
    [reflexivity|reflexivity|reflexivity|reflexivity|reflexivity|].
  apply cloud_var_fields_encode.
Defined.

(** ** [CurrentSessionAccessLevel.__str__] *)

(** X22.  [str] of an access level never raises [KeyError]: the
    dictionary of [__str__] has an entry for the name of every member;
    and different members have different texts. *)
Theorem CurrentSessionAccessLevel_str_total_injective :
  (∀ m, ∃ s, CurrentSessionAccessLevel.str m = Ok s)
  ∧ (∀ m m', CurrentSessionAccessLevel.str m = CurrentSessionAccessLevel.str m'
             ↔ m = m').
Proof.
  split.
  - intros m. destruct m; eexists; vm_compute; reflexivity.
  - intros m m'. split; [|by intros ->].
    destruct m, m'; vm_compute; first [reflexivity | discriminate].
Qed.
